(** * Lisbon road accidents dashboard: the filter and aggregation engine

    A shallow embedding of [dashboard.py].  The script is a Streamlit page:
    it loads a CSV into a pandas DataFrame, derives a few columns, reads four
    sidebar widgets, filters the frame with a boolean mask and renders
    metrics, a map and charts from the filtered frame.

    Modelling conventions.
    - A DataFrame is the list of its rows in index order, together with the
      category lists of its two categorical columns.  Vectorised column
      operations are written element by element; boolean masks are kept as
      columns ([list bool]) because the source builds them that way.
    - Integer columns hold int64 values, written as integers ([Z]) of that
      range.  Adding two columns and summing a column are done by numpy in
      int64 and wrap around silently; [int64_add] writes the wrap-around
      out.  Counts of rows are Python integers ([nat]).
    - A value of a categorical column is [Some label] or [None] (pandas'
      NaN, code -1).
    - [latitude] and [longitude] are floating point numbers that are
      only handed to the map renderer; they are left out of the row.
    - The script calls [pivot_table] without [observed], so the rows of the
      pivot depend on the default of the pandas that runs it: False before
      pandas 3 (every category is a row), True from pandas 3 on (only the
      categories that occur).  The default is a field of the session. *)

From Stdlib Require Import List ZArith Bool String Ascii Lia Permutation Sorted.
Import ListNotations.

Local Open Scope string_scope.
Local Open Scope list_scope.
Local Open Scope Z_scope.

(** ** Data model *)

(** One line of [data/Road_Accidents_Lisbon.csv] as [pd.read_csv] returns it. *)
Record raw_row : Type := mk_raw_row {
  raw_id : Z;
  raw_day : Z;
  raw_month : string;
  raw_weekday : string;
  raw_hour : Z;
  raw_fatalities_30d : Z;
  raw_serious_injuries_30d : Z;
  raw_minor_injuries_30d : Z
}.

(** One row of [df] after [load_data]. *)
Record row : Type := mk_row {
  id : Z;
  day : Z;
  month : option string;
  weekday : option string;
  hour : Z;
  fatalities_30d : Z;
  serious_injuries_30d : Z;
  minor_injuries_30d : Z;
  severity : string;
  total_victims : Z
}.

Record DataFrame : Type := mk_DataFrame {
  rows : list row;
  weekday_categories : list string;
  month_categories : list string
}.

(** ** numpy and pandas primitives *)

(** The value an int64 holds after an operation whose exact result is [z]:
    the representative of [z] modulo 2^64 in [-2^63, 2^63). *)
Definition int64_wrap (z : Z) : Z := (z + 2 ^ 63) mod 2 ^ 64 - 2 ^ 63.

(** [+] on int64 values. *)
Definition int64_add (a b : Z) : Z := int64_wrap (a + b).

(** [np.select(condlist, choicelist, default)] at one position.  numpy starts
    from the default and copies the choices in, last condition first, so
    that the first condition that holds is the one that stays. *)
Definition np_select {A : Type} (condlist : list bool) (choicelist : list A)
    (default : A) : A :=
  fold_right (fun (cc : bool * A) (result : A) => if fst cc then snd cc else result)
    default (combine condlist choicelist).

Definition mem_string (s : string) (l : list string) : bool :=
  existsb (String.eqb s) l.

(** [pd.Categorical(values, categories=...)] at one position: a value that is
    not one of the categories becomes NaN. *)
Definition Categorical (categories : list string) (value : string) : option string :=
  if mem_string value categories then Some value else None.

(** ** [load_data]: feature engineering *)

Definition choices : list string := ["Fatal"; "Serious Injury"; "Minor Injury"].

Definition weekday_order : list string :=
  ["Monday"; "Tuesday"; "Wednesday"; "Thursday"; "Friday"; "Saturday"; "Sunday"].

Definition month_order : list string :=
  ["Jan"; "Feb"; "Mar"; "Apr"; "May"; "Jun";
   "Jul"; "Aug"; "Sep"; "Oct"; "Nov"; "Dec"].

Definition conditions (r : raw_row) : list bool :=
  [ 0 <? raw_fatalities_30d r;
    0 <? raw_serious_injuries_30d r;
    0 <? raw_minor_injuries_30d r ].

(** The four column assignments of [load_data], on one row. *)
Definition engineer (r : raw_row) : row :=
  {| id := raw_id r;
     day := raw_day r;
     month := Categorical month_order (raw_month r);
     weekday := Categorical weekday_order (raw_weekday r);
     hour := raw_hour r;
     fatalities_30d := raw_fatalities_30d r;
     serious_injuries_30d := raw_serious_injuries_30d r;
     minor_injuries_30d := raw_minor_injuries_30d r;
     severity := np_select (conditions r) choices "No Injury";
     total_victims :=
       int64_add (int64_add (raw_fatalities_30d r) (raw_serious_injuries_30d r))
         (raw_minor_injuries_30d r) |}.

(** The frame [load_data] returns once the CSV has been read. *)
Definition feature_engineering (csv : list raw_row) : DataFrame :=
  {| rows := map engineer csv;
     weekday_categories := weekday_order;
     month_categories := month_order |}.

(** The rule of the specification, written as the specification words it. *)
Definition priority_rule (fatalities serious minor : Z) : string :=
  if 0 <? fatalities then "Fatal"
  else if 0 <? serious then "Serious Injury"
  else if 0 <? minor then "Minor Injury"
  else "No Injury".

(** ** Sorting, distinct values and counts *)

Section Sorting.
Context {A : Type} (le : A -> A -> bool).

Fixpoint insert_by (x : A) (l : list A) : list A :=
  match l with
  | [] => [x]
  | y :: t => if le x y then x :: y :: t else y :: insert_by x t
  end.

(** A stable sort: of two elements that compare equal the one that came
    first stays first. *)
Definition sort_by (l : list A) : list A := fold_right insert_by [] l.
End Sorting.

Section Counting.
Context {K : Type} (eqb : K -> K -> bool).

Definition count_of (k : K) (col : list K) : nat :=
  List.length (filter (eqb k) col).

(** [Series.unique()]: the distinct values in order of first appearance. *)
Fixpoint unique (col : list K) : list K :=
  match col with
  | [] => []
  | x :: t => x :: filter (fun y => negb (eqb x y)) (unique t)
  end.

Definition sort_values_descending (s : list (K * nat)) : list (K * nat) :=
  sort_by (fun a b => (snd b <=? snd a)%nat) s.

(** Each distinct value with the number of its occurrences. *)
Definition tabulate_counts (col : list K) : list (K * nat) :=
  map (fun k => (k, count_of k col)) (unique col).

(** [Series.value_counts()] of a column that is not categorical: one entry
    per value that occurs, most frequent first. *)
Definition value_counts (col : list K) : list (K * nat) :=
  sort_values_descending (tabulate_counts col).

Fixpoint lookup {V : Type} (k : K) (s : list (K * V)) : option V :=
  match s with
  | [] => None
  | (k', v) :: t => if eqb k k' then Some v else lookup k t
  end.

(** [Series.reindex(labels)]: the entries in the order of [labels]; a label
    the series does not have gets NaN. *)
Definition reindex {V : Type} (labels : list K) (s : list (K * V))
    : list (K * option V) :=
  map (fun l => (l, lookup l s)) labels.
End Counting.

Definition option_string_eqb (a b : option string) : bool :=
  match a, b with
  | Some x, Some y => String.eqb x y
  | None, None => true
  | _, _ => false
  end.

(** [Series.value_counts()] of a categorical column: every category has an
    entry, also with count 0; NaN is not counted. *)
Definition value_counts_categorical (categories : list string)
    (col : list (option string)) : list (string * nat) :=
  sort_values_descending
    (map (fun c => (c, count_of option_string_eqb (Some c) col)) categories).

(** [Series.sort_index()] on integer labels. *)
Definition sort_index (s : list (Z * nat)) : list (Z * nat) :=
  sort_by (fun a b => fst a <=? fst b) s.

(** Python's [sorted] on strings. *)
Definition sorted (l : list string) : list string := sort_by String.leb l.

Definition column {B : Type} (f : row -> B) (df : DataFrame) : list B :=
  map f (rows df).

(** [Series.sum()] of an int64 column: the values are added up in int64. *)
Definition series_sum (col : list Z) : Z := fold_left int64_add col 0.

(** ** Sidebar options *)

Definition severity_options (df : DataFrame) : list string :=
  sorted (unique String.eqb (column severity df)).

Definition weekday_options (df : DataFrame) : list string := weekday_categories df.

Definition month_options (df : DataFrame) : list string := month_categories df.

(** ** Filtering *)

(** What the four widgets return. *)
Record selection : Type := mk_selection {
  selected_severity : list string;
  hour_range : Z * Z;
  selected_weekdays : list string;
  selected_months : list string
}.

Definition isin (col : list string) (values : list string) : list bool :=
  map (fun v => mem_string v values) col.

(** [isin] on a categorical column; the values offered are labels, so NaN is
    never among them. *)
Definition isin_categorical (col : list (option string)) (values : list string)
    : list bool :=
  map (fun v => match v with Some s => mem_string s values | None => false end) col.

Definition ge_scalar (col : list Z) (x : Z) : list bool := map (fun v => v >=? x) col.

Definition le_scalar (col : list Z) (x : Z) : list bool := map (fun v => v <=? x) col.

(** Element-wise [&] of two masks. *)
Fixpoint mask_and (a b : list bool) : list bool :=
  match a, b with
  | x :: a', y :: b' => (x && y) :: mask_and a' b'
  | _, _ => []
  end.

(** [df[mask]]: the rows whose mask entry is True, in index order. *)
Fixpoint boolean_index {A : Type} (l : list A) (mask : list bool) : list A :=
  match l, mask with
  | x :: l', b :: mask' =>
      if b then x :: boolean_index l' mask' else boolean_index l' mask'
  | _, _ => []
  end.

Definition filter_mask (df : DataFrame) (sel : selection) : list bool :=
  mask_and (mask_and (mask_and (mask_and
    (isin (column severity df) (selected_severity sel))
    (isin_categorical (column weekday df) (selected_weekdays sel)))
    (isin_categorical (column month df) (selected_months sel)))
    (ge_scalar (column hour df) (fst (hour_range sel))))
    (le_scalar (column hour df) (snd (hour_range sel))).

Definition df_filtered (df : DataFrame) (sel : selection) : DataFrame :=
  {| rows := boolean_index (rows df) (filter_mask df sel);
     weekday_categories := weekday_categories df;
     month_categories := month_categories df |}.

Definition empty (df : DataFrame) : bool :=
  match rows df with [] => true | _ :: _ => false end.

(** The filter of the specification: all four conditions on one row. *)
Definition passes (sel : selection) (r : row) : bool :=
  mem_string (severity r) (selected_severity sel)
  && match weekday r with Some w => mem_string w (selected_weekdays sel) | None => false end
  && match month r with Some m => mem_string m (selected_months sel) | None => false end
  && (fst (hour_range sel) <=? hour r)
  && (hour r <=? snd (hour_range sel)).

(** ** KPI metrics *)

Definition total_accidents (filtered : DataFrame) : nat := List.length (rows filtered).

Definition total_fatalities (filtered : DataFrame) : Z :=
  series_sum (column fatalities_30d filtered).

Definition total_serious_injuries (filtered : DataFrame) : Z :=
  series_sum (column serious_injuries_30d filtered).

Definition total_minor_injuries (filtered : DataFrame) : Z :=
  series_sum (column minor_injuries_30d filtered).

(** ** Charts *)

Definition hourly_data (filtered : DataFrame) : list (Z * nat) :=
  sort_index (value_counts Z.eqb (column hour filtered)).

Definition weekday_data (options : list string) (filtered : DataFrame)
    : list (string * option nat) :=
  reindex String.eqb options
    (value_counts_categorical (weekday_categories filtered) (column weekday filtered)).

Definition severity_data (filtered : DataFrame) : list (string * nat) :=
  value_counts String.eqb (column severity filtered).

(** A two-dimensional frame of counts: row labels, column labels and the
    cells row by row; [None] is NaN. *)
Record Table : Type := mk_Table {
  t_index : list string;
  t_columns : list Z;
  t_cells : list (list (option nat))
}.

Definition has_weekday (r : row) : bool :=
  match weekday r with Some _ => true | None => false end.

Definition cell_count (w : string) (h : Z) (l : list row) : nat :=
  List.length (filter (fun r => option_string_eqb (weekday r) (Some w) && (hour r =? h)) l).

(** [pivot_table(index='weekday', columns='hour', values='id',
    aggfunc='count')].  The rows are grouped by (weekday, hour); rows with a
    NaN weekday belong to no group.  The column labels are the hours that
    occur, ascending.  The weekday key is categorical and the script leaves
    [observed] at its default.  With [observed=False] all the categories are
    row labels and a pair without rows counts 0.  With [observed=True] only
    the weekdays that occur are row labels, in the order of the categories,
    and a pair without rows is NaN. *)
Definition pivot_table (observed : bool) (df : DataFrame) : Table :=
  let grouped := filter has_weekday (rows df) in
  let hours := sort_by Z.leb (unique Z.eqb (map hour grouped)) in
  let labels :=
    if observed
    then filter (fun w => existsb (fun r => option_string_eqb (weekday r) (Some w)) grouped)
           (weekday_categories df)
    else weekday_categories df in
  {| t_index := labels;
     t_columns := hours;
     t_cells :=
       map (fun w => map (fun h => let n := cell_count w h grouped in
                                   if observed && (n =? 0)%nat then None else Some n)
                         hours)
           labels |}.

Definition fillna (v : nat) (t : Table) : Table :=
  {| t_index := t_index t;
     t_columns := t_columns t;
     t_cells := map (map (fun c => match c with Some n => Some n | None => Some v end))
                  (t_cells t) |}.

(** [DataFrame.reindex(labels)] on the rows: a label the frame does not have
    gets a row of NaN. *)
Definition reindex_rows (labels : list string) (t : Table) : Table :=
  let nan_row := map (fun _ => @None nat) (t_columns t) in
  {| t_index := labels;
     t_columns := t_columns t;
     t_cells := map (fun l => match lookup String.eqb l (combine (t_index t) (t_cells t)) with
                            | Some r => r
                            | None => nan_row
                            end) labels |}.

Definition heatmap_data (observed : bool) (options : list string)
    (filtered : DataFrame) : Table :=
  reindex_rows options (fillna 0 (pivot_table observed filtered)).

(** The cell of a table at a row label and a column label. *)
Definition cell (t : Table) (w : string) (h : Z) : option (option nat) :=
  match lookup String.eqb w (combine (t_index t) (t_cells t)) with
  | Some r => lookup Z.eqb h (combine (t_columns t) r)
  | None => None
  end.

Definition nansum (l : list (option nat)) : nat :=
  fold_right (fun c acc => match c with Some n => n + acc | None => acc end)%nat 0%nat l.

Definition grand_total (t : Table) : nat :=
  fold_right (fun r acc => nansum r + acc)%nat 0%nat (t_cells t).

(** ** The page: what the script shows *)

Record marker : Type := mk_marker {
  marker_id : Z;
  marker_severity : string;
  marker_color : string;
  marker_total_victims : Z
}.

Inductive figure : Type :=
| fig_hour (data : list (Z * nat))
| fig_day (data : list (string * option nat))
| fig_sev (data : list (string * nat))
| fig_heatmap (data : Table).

(** The calls of the script that reach the page and carry data; titles and
    fixed text are not recorded. *)
Inductive element : Type :=
| st_error (body : string)
| st_info (body : string)
| st_warning (body : string)
| sidebar_multiselect (label : string) (options default : list string)
| sidebar_slider (label : string) (min_value max_value : Z) (value : Z * Z)
| metric (label : string) (value : Z)
| st_folium (markers : list marker)
| plotly_chart (fig : figure).

(** A run of the script: the elements shown so far, and the value computed,
    or [None] once [st.stop()] has ended the run. *)
Definition Script (A : Type) : Type := (list element * option A)%type.

Definition ret {A : Type} (a : A) : Script A := ([], Some a).

Definition bind {A B : Type} (m : Script A) (k : A -> Script B) : Script B :=
  match m with
  | (shown, Some a) => let (shown', b) := k a in (shown ++ shown', b)
  | (shown, None) => (shown, None)
  end.

Definition show (e : element) : Script unit := ([e], Some tt).

Definition st_stop {A : Type} : Script A := ([], None).

Notation "x <- m ;; k" := (bind m (fun x => k))
  (at level 61, m at next level, right associativity).
Notation "m ;; k" := (bind m (fun _ => k))
  (at level 61, right associativity).

(** What the script reads from outside: the CSV file, if it is there, the
    state of the four widgets, and the default that the installed pandas
    gives to [observed]. *)
Record session : Type := mk_session {
  csv_file : option (list raw_row);
  widgets : selection;
  observed_default : bool
}.

Definition load_data (file : option (list raw_row)) : Script DataFrame :=
  match file with
  | Some csv => ret (feature_engineering csv)
  | None =>
      show (st_error "Error: The data file 'data/Road_Accidents_Lisbon.csv' was not found.") ;;
      show (st_info "Please make sure the 'Road_Accidents_Lisbon.csv' file is inside a folder named 'data'.") ;;
      st_stop
  end.

Definition severity_color_map : list (string * string) :=
  [ ("Fatal", "darkred"); ("Serious Injury", "red");
    ("Minor Injury", "orange"); ("No Injury", "lightblue") ].

Definition circle_marker (r : row) : marker :=
  {| marker_id := id r;
     marker_severity := severity r;
     marker_color :=
       match lookup String.eqb (severity r) severity_color_map with
       | Some c => c
       | None => "gray"
       end;
     marker_total_victims := total_victims r |}.

Definition no_data_warning : string :=
  "No data found for the selected filter combination. Please adjust your filters.".

Definition dashboard (s : session) : Script unit :=
  df <- load_data (csv_file s) ;;
  show (sidebar_multiselect "Filter by Accident Severity"
          (severity_options df) (severity_options df)) ;;
  show (sidebar_slider "Filter by Hour of Day" 0 23 (0, 23)) ;;
  show (sidebar_multiselect "Filter by Weekday"
          (weekday_options df) (weekday_options df)) ;;
  show (sidebar_multiselect "Filter by Month"
          (month_options df) (month_options df)) ;;
  let filtered := df_filtered df (widgets s) in
  (if empty filtered then show (st_warning no_data_warning) ;; st_stop else ret tt) ;;
  show (metric "Total Accidents" (Z.of_nat (total_accidents filtered))) ;;
  show (metric "Total Fatalities" (total_fatalities filtered)) ;;
  show (metric "Serious Injuries" (total_serious_injuries filtered)) ;;
  show (metric "Minor Injuries" (total_minor_injuries filtered)) ;;
  show (st_folium (map circle_marker (rows filtered))) ;;
  show (plotly_chart (fig_hour (hourly_data filtered))) ;;
  show (plotly_chart (fig_day (weekday_data (weekday_options df) filtered))) ;;
  show (plotly_chart (fig_sev (severity_data filtered))) ;;
  show (plotly_chart (fig_heatmap
          (heatmap_data (observed_default s) (weekday_options df) filtered))).

(** The elements that are computed from the filtered frame. *)
Definition is_aggregate (e : element) : bool :=
  match e with
  | metric _ _ | st_folium _ | plotly_chart _ => true
  | _ => false
  end.

(** ** The views of the specification *)

Record KPI : Type := mk_KPI {
  kpi_count : nat;
  kpi_fatalities : Z;
  kpi_serious_injuries : Z;
  kpi_minor_injuries : Z
}.

Definition summary (filtered : DataFrame) : KPI :=
  {| kpi_count := total_accidents filtered;
     kpi_fatalities := total_fatalities filtered;
     kpi_serious_injuries := total_serious_injuries filtered;
     kpi_minor_injuries := total_minor_injuries filtered |}.

(** Sum of a field over a list of rows, as a mathematical sum. *)
Fixpoint sigma (f : row -> Z) (l : list row) : Z :=
  match l with
  | [] => 0
  | r :: t => f r + sigma f t
  end.

Definition hour_count (h : Z) (l : list row) : nat :=
  List.length (filter (fun r => hour r =? h) l).

Definition weekday_count (w : string) (l : list row) : nat :=
  List.length (filter (fun r => option_string_eqb (weekday r) (Some w)) l).

Definition hours_of_day : list Z := map Z.of_nat (seq 0 24).

Definition severity_labels : list string :=
  ["Fatal"; "Serious Injury"; "Minor Injury"; "No Injury"].

(** ** Sample data *)

Definition everything : selection :=
  {| selected_severity := severity_labels;
     hour_range := (0, 23);
     selected_weekdays := weekday_order;
     selected_months := month_order |}.

(** One fatality and five minor injuries. *)
Definition sample_fatal : raw_row :=
  {| raw_id := 2; raw_day := 4; raw_month := "Mar"; raw_weekday := "Monday";
     raw_hour := 8; raw_fatalities_30d := 1; raw_serious_injuries_30d := 0;
     raw_minor_injuries_30d := 5 |}.

(** No victims. *)
Definition sample_unhurt : raw_row :=
  {| raw_id := 7; raw_day := 12; raw_month := "Jun"; raw_weekday := "Friday";
     raw_hour := 17; raw_fatalities_30d := 0; raw_serious_injuries_30d := 0;
     raw_minor_injuries_30d := 0 |}.

(** A weekday that is spelled differently from the categories. *)
Definition sample_misspelt : raw_row :=
  {| raw_id := 9; raw_day := 1; raw_month := "Jan"; raw_weekday := "monday";
     raw_hour := 9; raw_fatalities_30d := 0; raw_serious_injuries_30d := 0;
     raw_minor_injuries_30d := 1 |}.

(** ** Further views used by the properties *)

(** The widgets as the script sets them up: every option selected and the
    slider on the whole day. *)
Definition default_selection (df : DataFrame) : selection :=
  {| selected_severity := severity_options df;
     hour_range := (0, 23);
     selected_weekdays := weekday_options df;
     selected_months := month_options df |}.

(** The same selection with the hour slider moved. *)
Definition with_hours (sel : selection) (range : Z * Z) : selection :=
  {| selected_severity := selected_severity sel;
     hour_range := range;
     selected_weekdays := selected_weekdays sel;
     selected_months := selected_months sel |}.

Definition has_month (r : row) : bool :=
  match month r with Some _ => true | None => false end.

Definition severity_count (s : string) (l : list row) : nat :=
  List.length (filter (fun r => String.eqb (severity r) s) l).

(** The sum of one column of a table of counts, over all its rows. *)
Definition column_total (t : Table) (h : Z) : nat :=
  list_sum (map (fun w => match cell t w h with
                          | Some (Some n) => n
                          | _ => 0%nat
                          end) (t_index t)).

(** The four widgets of the sidebar. *)
Definition sidebar (df : DataFrame) : list element :=
  [ sidebar_multiselect "Filter by Accident Severity"
      (severity_options df) (severity_options df);
    sidebar_slider "Filter by Hour of Day" 0 23 (0, 23);
    sidebar_multiselect "Filter by Weekday" (weekday_options df) (weekday_options df);
    sidebar_multiselect "Filter by Month" (month_options df) (month_options df) ].

(** What the script shows below the sidebar once the filter has let some
    record through. *)
Definition main_page (observed : bool) (df filtered : DataFrame) : list element :=
  [ metric "Total Accidents" (Z.of_nat (total_accidents filtered));
    metric "Total Fatalities" (total_fatalities filtered);
    metric "Serious Injuries" (total_serious_injuries filtered);
    metric "Minor Injuries" (total_minor_injuries filtered);
    st_folium (map circle_marker (rows filtered));
    plotly_chart (fig_hour (hourly_data filtered));
    plotly_chart (fig_day (weekday_data (weekday_options df) filtered));
    plotly_chart (fig_sev (severity_data filtered));
    plotly_chart (fig_heatmap (heatmap_data observed (weekday_options df) filtered)) ].

(** A Tuesday morning with two minor injuries, and a Tuesday evening with a
    serious injury. *)
Definition sample_minor : raw_row :=
  {| raw_id := 1; raw_day := 3; raw_month := "Mar"; raw_weekday := "Tuesday";
     raw_hour := 10; raw_fatalities_30d := 0; raw_serious_injuries_30d := 0;
     raw_minor_injuries_30d := 2 |}.

Definition sample_serious : raw_row :=
  {| raw_id := 4; raw_day := 14; raw_month := "Apr"; raw_weekday := "Tuesday";
     raw_hour := 19; raw_fatalities_30d := 0; raw_serious_injuries_30d := 1;
     raw_minor_injuries_30d := 0 |}.

Definition sample_csv : list raw_row :=
  [sample_minor; sample_fatal; sample_unhurt; sample_serious].

(** Counts at the upper end of int64. *)
Definition sample_huge : raw_row :=
  {| raw_id := 11; raw_day := 5; raw_month := "May"; raw_weekday := "Sunday";
     raw_hour := 5; raw_fatalities_30d := 2 ^ 62; raw_serious_injuries_30d := 0;
     raw_minor_injuries_30d := 0 |}.

Definition sample_wrapping : raw_row :=
  {| raw_id := 12; raw_day := 6; raw_month := "May"; raw_weekday := "Monday";
     raw_hour := 6; raw_fatalities_30d := 2 ^ 63 - 1;
     raw_serious_injuries_30d := 2 ^ 63 - 1; raw_minor_injuries_30d := 2 |}.

(** The colours handed to the severity pie chart. *)
Definition color_discrete_map : list (string * string) :=
  [ ("Fatal", "darkred"); ("Serious Injury", "red");
    ("Minor Injury", "orange"); ("No Injury", "lightblue") ].

(** A column of a frame that has no negative value and whose values add up
    to less than 2^63: no sum over some of its rows wraps around. *)
Definition fits_int64 (f : row -> Z) (df : DataFrame) : Prop :=
  (forall r, In r (rows df) -> 0 <= f r) /\ sigma f (rows df) < 2 ^ 63.

(** * Properties *)

(** ** Sorting *)

Section SortingFacts.
Context {A : Type} (le : A -> A -> bool).

Lemma insert_by_perm (x : A) (l : list A) :
  Permutation (insert_by le x l) (x :: l).
Proof.
  induction l as [|y t IH]; simpl.
  - apply Permutation_refl.
  - destruct (le x y).
    + apply Permutation_refl.
    + eapply perm_trans; [apply perm_skip, IH | apply perm_swap].
Qed.

Lemma sort_by_perm (l : list A) : Permutation (sort_by le l) l.
Proof.
  induction l as [|x t IH]; simpl.
  - constructor.
  - eapply perm_trans; [apply insert_by_perm | apply perm_skip, IH].
Qed.

Hypothesis le_total : forall a b, le a b = true \/ le b a = true.

Lemma insert_by_sorted (x : A) (l : list A) :
  Sorted (fun a b => le a b = true) l ->
  Sorted (fun a b => le a b = true) (insert_by le x l).
Proof.
  induction l as [|y t IH]; simpl; intros Hs.
  - repeat constructor.
  - destruct (le x y) eqn:Hxy.
    + constructor; [assumption | constructor; exact Hxy].
    + inversion Hs as [|? ? Ht Hhd]; subst.
      constructor; [apply IH, Ht |].
      assert (Hyx : le y x = true)
        by (destruct (le_total x y) as [H|H]; [congruence | exact H]).
      destruct t as [|z t']; simpl.
      * constructor; exact Hyx.
      * destruct (le x z); constructor; [exact Hyx |].
        inversion Hhd; assumption.
Qed.

Lemma sort_by_sorted (l : list A) :
  Sorted (fun a b => le a b = true) (sort_by le l).
Proof.
  induction l as [|x t IH]; simpl.
  - constructor.
  - apply insert_by_sorted, IH.
Qed.
End SortingFacts.

Lemma list_sum_perm (l l' : list nat) :
  Permutation l l' -> list_sum l = list_sum l'.
Proof.
  induction 1; simpl; lia.
Qed.

(** ** Association lists *)

Section LookupFacts.
Context {K : Type} (eqb : K -> K -> bool).
Hypothesis eqb_eq : forall a b, eqb a b = true <-> a = b.

Lemma eqb_same (a : K) : eqb a a = true.
Proof. apply eqb_eq; reflexivity. Qed.

Lemma eqb_diff (a b : K) : a <> b -> eqb a b = false.
Proof.
  intros Hne; destruct (eqb a b) eqn:E; [|reflexivity].
  apply eqb_eq in E; contradiction.
Qed.

Lemma lookup_In {V : Type} (k : K) (v : V) (s : list (K * V)) :
  NoDup (map fst s) -> (lookup eqb k s = Some v <-> In (k, v) s).
Proof.
  induction s as [|[k' v'] t IH]; simpl; intros Hnd.
  - split; [discriminate | contradiction].
  - inversion Hnd as [|? ? Hnot Hnd']; subst.
    destruct (eqb k k') eqn:E.
    + apply eqb_eq in E; subst k'. split.
      * intros H; injection H as ->; left; reflexivity.
      * intros [H|H]; [congruence|].
        exfalso; apply Hnot. apply (in_map fst) in H; exact H.
    + rewrite (IH Hnd'). split.
      * intros H; right; exact H.
      * intros [H|H]; [|exact H].
        injection H as -> _. rewrite eqb_same in E; discriminate.
Qed.

Lemma lookup_perm {V : Type} (k : K) (s s' : list (K * V)) :
  NoDup (map fst s) -> Permutation s s' -> lookup eqb k s = lookup eqb k s'.
Proof.
  intros Hnd Hp.
  assert (Hnd' : NoDup (map fst s'))
    by (eapply Permutation_NoDup; [apply Permutation_map, Hp | exact Hnd]).
  destruct (lookup eqb k s) as [v|] eqn:E.
  - symmetry. apply lookup_In; [exact Hnd'|].
    eapply Permutation_in; [exact Hp|]. apply lookup_In; assumption.
  - destruct (lookup eqb k s') as [v'|] eqn:E'; [|reflexivity].
    apply lookup_In in E'; [|exact Hnd'].
    apply (Permutation_in _ (Permutation_sym Hp)) in E'.
    apply lookup_In in E'; [congruence | exact Hnd].
Qed.

Lemma lookup_tabulate {V : Type} (f : K -> V) (k : K) (ks : list K) :
  In k ks -> lookup eqb k (map (fun x => (x, f x)) ks) = Some (f k).
Proof.
  induction ks as [|x t IH]; simpl; [contradiction|].
  intros Hin. destruct (eqb k x) eqn:E.
  - apply eqb_eq in E; subst; reflexivity.
  - destruct Hin as [->|Hin]; [rewrite eqb_same in E; discriminate | auto].
Qed.

Lemma lookup_absent {V : Type} (k : K) (s : list (K * V)) :
  ~ In k (map fst s) -> lookup eqb k s = None.
Proof.
  induction s as [|[k' v'] t IH]; simpl; [reflexivity|].
  intros Hnot. rewrite eqb_diff by (intros ->; apply Hnot; left; reflexivity).
  apply IH; intros H; apply Hnot; right; exact H.
Qed.

Lemma combine_tabulate {V : Type} (f : K -> V) (ks : list K) :
  combine ks (map f ks) = map (fun x => (x, f x)) ks.
Proof.
  induction ks as [|x t IH]; simpl; [reflexivity | rewrite IH; reflexivity].
Qed.

(** *** Distinct values and counts *)

Lemma unique_In (k : K) (col : list K) : In k (unique eqb col) <-> In k col.
Proof.
  induction col as [|x t IH]; simpl; [tauto|].
  rewrite filter_In, IH. split.
  - intros [H|[H _]]; [left | right]; assumption.
  - intros [H|H]; [left; exact H|].
    destruct (eqb x k) eqn:E.
    + left; apply eqb_eq; exact E.
    + right; split; [exact H | reflexivity].
Qed.

Lemma unique_NoDup (col : list K) : NoDup (unique eqb col).
Proof.
  induction col as [|x t IH]; simpl; constructor.
  - rewrite filter_In. intros [_ H]. rewrite eqb_same in H; discriminate.
  - apply NoDup_filter, IH.
Qed.

Lemma count_of_cons (k x : K) (col : list K) :
  count_of eqb k (x :: col)
  = ((if eqb k x then 1 else 0) + count_of eqb k col)%nat.
Proof.
  unfold count_of; simpl. destruct (eqb k x); reflexivity.
Qed.

Lemma count_of_pos (k : K) (col : list K) :
  (0 < count_of eqb k col)%nat <-> In k col.
Proof.
  induction col as [|x t IH]; [unfold count_of; simpl; split; [lia | contradiction]|].
  rewrite count_of_cons. simpl. destruct (eqb k x) eqn:E.
  - apply eqb_eq in E; subst. split; [left; reflexivity | lia].
  - simpl. rewrite IH. split; [right; assumption|].
    intros [->|H]; [rewrite eqb_same in E; discriminate | exact H].
Qed.

Lemma indicator_sum (x : K) (ks : list K) :
  NoDup ks -> In x ks ->
  list_sum (map (fun k => if eqb k x then 1 else 0)%nat ks) = 1%nat.
Proof.
  induction ks as [|k t IH]; simpl; [contradiction|].
  intros Hnd Hin. inversion Hnd as [|? ? Hnot Hnd']; subst.
  destruct (eqb k x) eqn:E.
  - apply eqb_eq in E; subst k.
    assert (Hz : list_sum (map (fun k => if eqb k x then 1 else 0)%nat t) = 0%nat).
    { clear -Hnot eqb_eq. induction t as [|y t' IH']; simpl; [reflexivity|].
      rewrite eqb_diff by (intros ->; apply Hnot; left; reflexivity).
      simpl. apply IH'. intros H; apply Hnot; right; exact H. }
    rewrite Hz; reflexivity.
  - destruct Hin as [->|Hin]; [rewrite eqb_same in E; discriminate|].
    simpl. apply IH; assumption.
Qed.

(** Counting by key splits a column: when every value of the column is one
    of the keys and no key is repeated, the counts add up to the length. *)
Lemma count_partition (ks col : list K) :
  NoDup ks -> (forall x, In x col -> In x ks) ->
  list_sum (map (fun k => count_of eqb k col) ks) = List.length col.
Proof.
  intros Hnd. induction col as [|x t IH]; intros Hall.
  - unfold count_of; simpl. clear Hnd Hall.
    induction ks as [|k l IHl]; simpl; auto.
  - assert (Hsplit : forall l,
      list_sum (map (fun k => count_of eqb k (x :: t)) l)
      = (list_sum (map (fun k => if eqb k x then 1 else 0)%nat l)
         + list_sum (map (fun k => count_of eqb k t) l))%nat).
    { induction l as [|k l' IHl]; simpl; [reflexivity|].
      rewrite IHl, count_of_cons. destruct (eqb k x); lia. }
    rewrite Hsplit, indicator_sum, IH; simpl; auto.
    + intros y Hy; apply Hall; right; exact Hy.
    + apply Hall; left; reflexivity.
Qed.
End LookupFacts.

(** ** int64 arithmetic *)

Lemma int64_wrap_small (z : Z) : - 2 ^ 63 <= z < 2 ^ 63 -> int64_wrap z = z.
Proof.
  intros Hz. unfold int64_wrap.
  rewrite Z.mod_small; [ring|].
  change (2 ^ 64) with (2 ^ 63 + 2 ^ 63). lia.
Qed.

Lemma int64_wrap_range (z : Z) : - 2 ^ 63 <= int64_wrap z < 2 ^ 63.
Proof.
  unfold int64_wrap.
  assert (H := Z.mod_pos_bound (z + 2 ^ 63) (2 ^ 64) eq_refl).
  change (2 ^ 64) with (2 ^ 63 + 2 ^ 63) in *. lia.
Qed.

Lemma int64_wrap_add_l (a b : Z) :
  int64_wrap (int64_wrap a + b) = int64_wrap (a + b).
Proof.
  unfold int64_wrap.
  replace ((a + 2 ^ 63) mod 2 ^ 64 - 2 ^ 63 + b + 2 ^ 63)
    with ((a + 2 ^ 63) mod 2 ^ 64 + b) by ring.
  rewrite Zplus_mod_idemp_l. do 2 f_equal. ring.
Qed.

Lemma int64_wrap_add_r (a b : Z) :
  int64_wrap (a + int64_wrap b) = int64_wrap (a + b).
Proof.
  rewrite Z.add_comm, int64_wrap_add_l. f_equal. ring.
Qed.

Lemma int64_add_add (a b c : Z) :
  int64_add (int64_add a b) c = int64_wrap (a + b + c).
Proof. unfold int64_add. apply int64_wrap_add_l. Qed.

(** ** Feature engineering *)

Lemma mem_string_In (s : string) (l : list string) :
  mem_string s l = true <-> In s l.
Proof.
  unfold mem_string. rewrite existsb_exists. split.
  - intros [x [Hin Heq]]. apply String.eqb_eq in Heq; subst; exact Hin.
  - intros Hin. exists s. split; [exact Hin | apply String.eqb_refl].
Qed.

Lemma np_select_first_match {A : Type} (c : bool) (cs : list bool) (x : A)
    (xs : list A) (default : A) :
  np_select (c :: cs) (x :: xs) default
  = if c then x else np_select cs xs default.
Proof. reflexivity. Qed.

Lemma severity_engineer (r : raw_row) :
  severity (engineer r)
  = priority_rule (raw_fatalities_30d r) (raw_serious_injuries_30d r)
      (raw_minor_injuries_30d r).
Proof.
  unfold engineer, priority_rule, conditions, choices; simpl.
  repeat rewrite np_select_first_match. reflexivity.
Qed.

(** C1. [load_data] gives every record the severity of the priority rule,
    first match winning: Fatal when there are fatalities, else Serious Injury
    when there are serious injuries, else Minor Injury when there are minor
    injuries, else No Injury.  A record with one fatality and five minor
    injuries is Fatal, whatever its other fields. *)
Theorem severity_by_priority_rule :
  (forall csv : list raw_row,
     exists df, load_data (Some csv) = ([], Some df)
       /\ column severity df
          = map (fun r => priority_rule (raw_fatalities_30d r)
                            (raw_serious_injuries_30d r) (raw_minor_injuries_30d r)) csv)
  /\ (forall i d m w h s,
        severity (engineer (mk_raw_row i d m w h 1 s 5)) = "Fatal").
Proof.
  split.
  - intros csv. exists (feature_engineering csv). split; [reflexivity|].
    unfold column, feature_engineering; simpl. rewrite map_map.
    apply map_ext. intros r. apply severity_engineer.
  - intros. rewrite severity_engineer. reflexivity.
Qed.

(** C9, as the code has it.  For a record whose three victim counts are not
    negative and add up to less than 2^63, so that the int64 additions do
    not wrap around, the total of victims is 0 exactly when the severity is
    No Injury, and it is positive exactly when the severity is Fatal,
    Serious Injury or Minor Injury. *)
Theorem total_victims_zero_iff_no_injury (r : raw_row) :
  0 <= raw_fatalities_30d r ->
  0 <= raw_serious_injuries_30d r ->
  0 <= raw_minor_injuries_30d r ->
  raw_fatalities_30d r + raw_serious_injuries_30d r + raw_minor_injuries_30d r
    < 2 ^ 63 ->
  (total_victims (engineer r) = 0 <-> severity (engineer r) = "No Injury")
  /\ (0 < total_victims (engineer r) <->
      In (severity (engineer r)) ["Fatal"; "Serious Injury"; "Minor Injury"]).
Proof.
  intros Hf Hs Hm Hsum. rewrite severity_engineer. unfold priority_rule.
  cbn [total_victims engineer].
  rewrite int64_add_add, int64_wrap_small by lia.
  destruct (0 <? raw_fatalities_30d r) eqn:Ef;
    [|destruct (0 <? raw_serious_injuries_30d r) eqn:Es;
      [|destruct (0 <? raw_minor_injuries_30d r) eqn:Em]];
    rewrite ?Z.ltb_lt, ?Z.ltb_ge in *; simpl;
    (split; split; intros H; try lia; try discriminate; auto;
     try (repeat destruct H as [H|H]; try discriminate H; try contradiction)).
Qed.

(** The record without victims: its total is 0 and it is No Injury. *)
Lemma total_victims_zero_iff_no_injury_witness :
  (0 <= raw_fatalities_30d sample_unhurt
   /\ 0 <= raw_serious_injuries_30d sample_unhurt
   /\ 0 <= raw_minor_injuries_30d sample_unhurt
   /\ raw_fatalities_30d sample_unhurt + raw_serious_injuries_30d sample_unhurt
      + raw_minor_injuries_30d sample_unhurt < 2 ^ 63)
  /\ (total_victims (engineer sample_unhurt) = 0
      <-> severity (engineer sample_unhurt) = "No Injury").
Proof.
  split.
  - simpl; lia.
  - apply (total_victims_zero_iff_no_injury sample_unhurt); simpl; lia.
Defined.

(** C9 as stated fails: the counts 2^63 - 1, 2^63 - 1 and 2 are not negative
    and fit int64, their int64 sum wraps around to 0, and the record is
    Fatal. *)
Lemma total_victims_wraps_to_zero :
  (0 <= raw_fatalities_30d sample_wrapping
   /\ 0 <= raw_serious_injuries_30d sample_wrapping
   /\ 0 <= raw_minor_injuries_30d sample_wrapping)
  /\ total_victims (engineer sample_wrapping) = 0
  /\ severity (engineer sample_wrapping) = "Fatal"
  /\ ~ (total_victims (engineer sample_wrapping) = 0
        <-> severity (engineer sample_wrapping) = "No Injury").
Proof.
  split; [simpl; lia|].
  split; [vm_compute; reflexivity|].
  split; [vm_compute; reflexivity|].
  intros [H _].
  assert (E : severity (engineer sample_wrapping) = "No Injury")
    by (apply H; vm_compute; reflexivity).
  vm_compute in E. discriminate E.
Qed.

(** ** Filtering *)

Lemma mask_and_map {A : Type} (f g : A -> bool) (l : list A) :
  mask_and (map f l) (map g l) = map (fun x => f x && g x) l.
Proof.
  induction l as [|x t IH]; simpl; [reflexivity | rewrite IH; reflexivity].
Qed.

Lemma boolean_index_map {A : Type} (f : A -> bool) (l : list A) :
  boolean_index l (map f l) = filter f l.
Proof.
  induction l as [|x t IH]; simpl; [reflexivity|].
  rewrite IH. reflexivity.
Qed.

Lemma filter_mask_passes (df : DataFrame) (sel : selection) :
  filter_mask df sel = map (passes sel) (rows df).
Proof.
  unfold filter_mask, isin, isin_categorical, ge_scalar, le_scalar, column.
  repeat rewrite map_map. repeat rewrite mask_and_map.
  apply map_ext. intros r. unfold passes.
  rewrite Z.geb_leb. reflexivity.
Qed.

Lemma df_filtered_rows (df : DataFrame) (sel : selection) :
  rows (df_filtered df sel) = filter (passes sel) (rows df).
Proof.
  unfold df_filtered; simpl. rewrite filter_mask_passes.
  apply boolean_index_map.
Qed.

Lemma passes_spec (sel : selection) (r : row) :
  passes sel r = true <->
  In (severity r) (selected_severity sel)
  /\ (exists w, weekday r = Some w /\ In w (selected_weekdays sel))
  /\ (exists m, month r = Some m /\ In m (selected_months sel))
  /\ fst (hour_range sel) <= hour r <= snd (hour_range sel).
Proof.
  unfold passes. repeat rewrite andb_true_iff.
  rewrite mem_string_In, !Z.leb_le.
  destruct (weekday r) as [w|], (month r) as [m|];
    rewrite ?mem_string_In; split.
  - intros [[[[Hs Hw] Hm] Hlo] Hhi]. eauto 10.
  - intros (Hs & (w' & Ew & Hw) & (m' & Em & Hm) & Hlo & Hhi).
    injection Ew as <-; injection Em as <-. auto.
  - intros [[[[_ _] Hm] _] _]; discriminate.
  - intros (_ & _ & (m' & Em & _) & _); discriminate.
  - intros [[[[_ Hw] _] _] _]; discriminate.
  - intros (_ & (w' & Ew & _) & _); discriminate.
  - intros [[[[_ Hw] _] _] _]; discriminate.
  - intros (_ & (w' & Ew & _) & _); discriminate.
Qed.

(** C2. The filtered frame holds exactly the records of the frame whose
    severity is among the selected severities, whose weekday is among the
    selected weekdays, whose month is among the selected months and whose
    hour lies in the hour range, both ends included; they come in the order
    they have in the frame. *)
Theorem filter_is_conjunction (df : DataFrame) (sel : selection) :
  rows (df_filtered df sel) = filter (passes sel) (rows df)
  /\ (forall r, passes sel r = true <->
        In (severity r) (selected_severity sel)
        /\ (exists w, weekday r = Some w /\ In w (selected_weekdays sel))
        /\ (exists m, month r = Some m /\ In m (selected_months sel))
        /\ fst (hour_range sel) <= hour r <= snd (hour_range sel))
  /\ (forall r, In r (rows (df_filtered df sel)) <->
        In r (rows df) /\ passes sel r = true).
Proof.
  split; [apply df_filtered_rows|]. split; [apply passes_spec|].
  intros r. rewrite df_filtered_rows. apply filter_In.
Qed.

Lemma Categorical_None (categories : list string) (value : string) :
  ~ In value categories -> Categorical categories value = None.
Proof.
  intros Hnot. unfold Categorical.
  destruct (mem_string value categories) eqn:E; [|reflexivity].
  apply mem_string_In in E; contradiction.
Qed.

Lemma Categorical_Some (categories : list string) (value label : string) :
  Categorical categories value = Some label -> In label categories.
Proof.
  unfold Categorical. destruct (mem_string value categories) eqn:E; [|discriminate].
  intros H; injection H as <-. apply mem_string_In; exact E.
Qed.

(** C10. A record whose weekday is not one of the seven categories, or whose
    month is not one of the twelve, gets NaN in that column, and it is in no
    filtered frame, whatever the widgets select. *)
Theorem unknown_label_never_passes (csv : list raw_row) (sel : selection)
    (r : raw_row) :
  ~ In (raw_weekday r) weekday_order \/ ~ In (raw_month r) month_order ->
  (~ In (raw_weekday r) weekday_order -> weekday (engineer r) = None)
  /\ (~ In (raw_month r) month_order -> month (engineer r) = None)
  /\ ~ In (engineer r) (rows (df_filtered (feature_engineering csv) sel)).
Proof.
  intros Hbad.
  assert (Hw : ~ In (raw_weekday r) weekday_order -> weekday (engineer r) = None)
    by (intros H; apply Categorical_None; exact H).
  assert (Hm : ~ In (raw_month r) month_order -> month (engineer r) = None)
    by (intros H; apply Categorical_None; exact H).
  split; [exact Hw|]. split; [exact Hm|].
  rewrite df_filtered_rows, filter_In, passes_spec.
  intros (_ & _ & (w & Ew & _) & (m & Em & _) & _).
  destruct Hbad as [H|H]; [rewrite (Hw H) in Ew | rewrite (Hm H) in Em];
    discriminate.
Qed.

(** A record whose weekday is written "monday" is dropped even when every
    weekday is selected. *)
Lemma unknown_label_never_passes_witness :
  (~ In (raw_weekday sample_misspelt) weekday_order
   \/ ~ In (raw_month sample_misspelt) month_order)
  /\ weekday (engineer sample_misspelt) = None
  /\ ~ In (engineer sample_misspelt)
       (rows (df_filtered (feature_engineering [sample_fatal; sample_misspelt])
                everything)).
Proof.
  assert (Hbad : ~ In (raw_weekday sample_misspelt) weekday_order).
  { simpl. intros H. repeat (destruct H as [H|H]; [discriminate H|]). exact H. }
  split; [left; exact Hbad|].
  destruct (unknown_label_never_passes [sample_fatal; sample_misspelt]
              everything sample_misspelt (or_introl Hbad)) as (Hw & _ & Hout).
  split; [exact (Hw Hbad) | exact Hout].
Defined.

(** ** KPI metrics *)

Lemma series_sum_wrap (f : row -> Z) (l : list row) :
  series_sum (map f l) = int64_wrap (sigma f l).
Proof.
  unfold series_sum.
  assert (H : forall acc,
            fold_left int64_add (map f l) (int64_wrap acc)
            = int64_wrap (acc + sigma f l)).
  { induction l as [|r t IH]; simpl; intros acc.
    - f_equal. ring.
    - unfold int64_add at 2. rewrite int64_wrap_add_l, IH. f_equal. ring. }
  apply (H 0).
Qed.

Lemma series_sum_exact (f : row -> Z) (l : list row) :
  - 2 ^ 63 <= sigma f l < 2 ^ 63 -> series_sum (map f l) = sigma f l.
Proof.
  intros Hrange. rewrite series_sum_wrap. apply int64_wrap_small, Hrange.
Qed.

(** C6, as the code has it.  The four KPI values are the number of records
    of the filtered frame and the sums of its fatalities, serious injuries
    and minor injuries, over the records that pass the filter and not over
    the frame that was loaded.  The three sums are int64 sums: each is the
    mathematical sum brought into the int64 range by wrap-around, and it is
    the mathematical sum whenever that lies in the int64 range. *)
Theorem summary_of_filtered (df : DataFrame) (sel : selection) :
  let subset := filter (passes sel) (rows df) in
  summary (df_filtered df sel)
  = {| kpi_count := List.length subset;
       kpi_fatalities := int64_wrap (sigma fatalities_30d subset);
       kpi_serious_injuries := int64_wrap (sigma serious_injuries_30d subset);
       kpi_minor_injuries := int64_wrap (sigma minor_injuries_30d subset) |}
  /\ (- 2 ^ 63 <= sigma fatalities_30d subset < 2 ^ 63 ->
      kpi_fatalities (summary (df_filtered df sel)) = sigma fatalities_30d subset)
  /\ (- 2 ^ 63 <= sigma serious_injuries_30d subset < 2 ^ 63 ->
      kpi_serious_injuries (summary (df_filtered df sel))
      = sigma serious_injuries_30d subset)
  /\ (- 2 ^ 63 <= sigma minor_injuries_30d subset < 2 ^ 63 ->
      kpi_minor_injuries (summary (df_filtered df sel))
      = sigma minor_injuries_30d subset).
Proof.
  intros subset.
  unfold summary, total_accidents, total_fatalities, total_serious_injuries,
    total_minor_injuries, column.
  cbn [kpi_fatalities kpi_serious_injuries kpi_minor_injuries].
  rewrite df_filtered_rows. fold subset.
  split; [rewrite !series_sum_wrap; reflexivity|].
  split; [|split]; apply series_sum_exact.
Qed.

(** C6 as stated fails: two records with 2^62 fatalities each pass the
    filter, their fatalities add up to 2^63, and the int64 sum that the
    metric shows is -2^63. *)
Lemma fatalities_metric_wraps :
  let filtered :=
    df_filtered (feature_engineering [sample_huge; sample_huge]) everything in
  rows filtered = rows (feature_engineering [sample_huge; sample_huge])
  /\ sigma fatalities_30d (rows filtered) = 2 ^ 63
  /\ kpi_fatalities (summary filtered) = - 2 ^ 63
  /\ kpi_fatalities (summary filtered) <> sigma fatalities_30d (rows filtered).
Proof.
  split; [vm_compute; reflexivity|].
  split; [vm_compute; reflexivity|].
  split; [vm_compute; reflexivity|].
  vm_compute. discriminate.
Qed.

(** ** Counts per value *)

Lemma Z_eqb_eq (a b : Z) : (a =? b) = true <-> a = b.
Proof. apply Z.eqb_eq. Qed.

Lemma option_string_eqb_eq (a b : option string) :
  option_string_eqb a b = true <-> a = b.
Proof.
  destruct a as [x|], b as [y|]; simpl;
    try (split; [discriminate | discriminate]); try tauto.
  rewrite String.eqb_eq. split; [intros ->; reflexivity | congruence].
Qed.

Lemma count_of_map {A K : Type} (eqb : K -> K -> bool) (f : A -> K) (k : K)
    (l : list A) :
  count_of eqb k (map f l) = List.length (filter (fun r => eqb k (f r)) l).
Proof.
  unfold count_of. induction l as [|x t IH]; simpl; [reflexivity|].
  destruct (eqb k (f x)); simpl; rewrite IH; reflexivity.
Qed.

Lemma hour_count_count_of (h : Z) (l : list row) :
  hour_count h l = count_of Z.eqb h (map hour l).
Proof.
  rewrite count_of_map. unfold hour_count. f_equal.
  apply filter_ext. intros r. apply Z.eqb_sym.
Qed.

Lemma weekday_count_count_of (w : string) (l : list row) :
  weekday_count w l = count_of option_string_eqb (Some w) (map weekday l).
Proof.
  rewrite count_of_map. unfold weekday_count. f_equal.
  apply filter_ext. intros r.
  destruct (weekday r); simpl; [apply String.eqb_sym | reflexivity].
Qed.

Lemma strictly_ascending {A : Type} (key : A -> Z) (l : list A) :
  Sorted (fun a b => (key a <=? key b) = true) l ->
  NoDup (map key l) ->
  StronglySorted Z.lt (map key l).
Proof.
  intros Hs Hnd.
  apply Sorted_StronglySorted in Hs;
    [|intros a b c Hab Hbc; apply Z.leb_le in Hab, Hbc; apply Z.leb_le; lia].
  induction Hs as [|a t Hs IH Hall]; simpl in *; constructor.
  - apply IH. inversion Hnd; assumption.
  - inversion Hnd as [|? ? Hnot _]; subst.
    rewrite Forall_forall in *. intros k Hk.
    apply in_map_iff in Hk as [b [<- Hb]].
    specialize (Hall b Hb). apply Z.leb_le in Hall.
    assert (key a <> key b)
      by (intros E; apply Hnot; rewrite E; apply in_map; exact Hb).
    lia.
Qed.

Lemma value_counts_perm {K : Type} (eqb : K -> K -> bool) (col : list K) :
  Permutation (value_counts eqb col) (tabulate_counts eqb col).
Proof. apply sort_by_perm. Qed.

Lemma hourly_data_perm (filtered : DataFrame) :
  Permutation (hourly_data filtered)
    (tabulate_counts Z.eqb (column hour filtered)).
Proof.
  unfold hourly_data, sort_index.
  eapply perm_trans; [apply sort_by_perm | apply value_counts_perm].
Qed.

Lemma tabulate_counts_keys {K : Type} (eqb : K -> K -> bool) (col : list K) :
  map fst (tabulate_counts eqb col) = unique eqb col.
Proof.
  unfold tabulate_counts. rewrite map_map; simpl. apply map_id.
Qed.

Lemma hourly_data_entries (filtered : DataFrame) (h : Z) (c : nat) :
  In (h, c) (hourly_data filtered) <->
  c = hour_count h (rows filtered) /\ (0 < c)%nat.
Proof.
  rewrite hour_count_count_of. fold (column hour filtered).
  set (col := column hour filtered).
  assert (Hiff : In (h, c) (hourly_data filtered)
                 <-> In (h, c) (tabulate_counts Z.eqb col)).
  { split; apply Permutation_in;
      [|apply Permutation_sym]; apply hourly_data_perm. }
  rewrite Hiff. unfold tabulate_counts. rewrite in_map_iff. split.
  - intros [k [Hk Hin]]. injection Hk as -> <-. split; [reflexivity|].
    apply (count_of_pos Z.eqb Z_eqb_eq), (unique_In Z.eqb Z_eqb_eq), Hin.
  - intros [-> Hpos]. exists h. split; [reflexivity|].
    apply (unique_In Z.eqb Z_eqb_eq), (count_of_pos Z.eqb Z_eqb_eq), Hpos.
Qed.

Lemma hourly_data_ascending (filtered : DataFrame) :
  StronglySorted Z.lt (map fst (hourly_data filtered)).
Proof.
  apply strictly_ascending.
  - unfold hourly_data, sort_index. apply sort_by_sorted.
    intros a b. rewrite !Z.leb_le. lia.
  - eapply Permutation_NoDup.
    + apply Permutation_sym, Permutation_map, hourly_data_perm.
    + rewrite tabulate_counts_keys. apply (unique_NoDup Z.eqb Z_eqb_eq).
Qed.

(** C3, as the code has it.  The hourly distribution has one entry for each
    hour that occurs in the filtered frame, with the number of its records,
    which is positive; an hour without records has no entry.  The entries
    are in strictly ascending order of the hour. *)
Theorem hourly_distribution_of_observed_hours (filtered : DataFrame) :
  (forall h c, In (h, c) (hourly_data filtered) <->
     c = hour_count h (rows filtered) /\ (0 < c)%nat)
  /\ StronglySorted Z.lt (map fst (hourly_data filtered)).
Proof.
  split; [intros h c; apply hourly_data_entries | apply hourly_data_ascending].
Qed.

(** C3 as stated fails: with every widget at its default and one record, at
    8 o'clock, the hourly distribution is the single entry (8, 1) and the
    other 23 hours have no entry. *)
Lemma hourly_distribution_not_dense :
  let filtered := df_filtered (feature_engineering [sample_fatal]) everything in
  hourly_data filtered = [(8, 1%nat)]
  /\ ~ (forall h, In h hours_of_day -> exists c, In (h, c) (hourly_data filtered)).
Proof.
  split; [vm_compute; reflexivity|].
  intros Hdense.
  destruct (Hdense 0) as [c Hc]; [vm_compute; left; reflexivity|].
  vm_compute in Hc. destruct Hc as [Hc|[]]. discriminate Hc.
Qed.

(** ** Sidebar options *)

Lemma priority_rule_label (f s m : Z) : In (priority_rule f s m) severity_labels.
Proof.
  unfold priority_rule, severity_labels.
  destruct (0 <? f); [simpl; auto|].
  destruct (0 <? s); [simpl; auto|].
  destruct (0 <? m); simpl; auto.
Qed.

Lemma severity_options_In (df : DataFrame) (s : string) :
  In s (severity_options df) <-> In s (column severity df).
Proof.
  unfold severity_options, sorted.
  rewrite <- (unique_In String.eqb String.eqb_eq s (column severity df)).
  split; apply Permutation_in; [|apply Permutation_sym]; apply sort_by_perm.
Qed.

Lemma severity_options_NoDup (df : DataFrame) : NoDup (severity_options df).
Proof.
  unfold severity_options, sorted.
  eapply Permutation_NoDup; [apply Permutation_sym, sort_by_perm|].
  apply (unique_NoDup String.eqb String.eqb_eq).
Qed.

(** C4, as the code has it.  The severity selector offers the severities
    that occur in the loaded data, each once, in the order of Python's string
    comparison; they are among the four labels.  The weekday selector offers
    the seven weekdays from Monday to Sunday and the month selector the
    twelve months from Jan to Dec, whatever the data holds. *)
Theorem selector_options (csv : list raw_row) :
  let df := feature_engineering csv in
  (forall s, In s (severity_options df) <->
     exists r, In r (rows df) /\ severity r = s)
  /\ NoDup (severity_options df)
  /\ Sorted (fun a b => String.leb a b = true) (severity_options df)
  /\ incl (severity_options df) severity_labels
  /\ weekday_options df
     = ["Monday"; "Tuesday"; "Wednesday"; "Thursday"; "Friday"; "Saturday"; "Sunday"]
  /\ month_options df
     = ["Jan"; "Feb"; "Mar"; "Apr"; "May"; "Jun";
        "Jul"; "Aug"; "Sep"; "Oct"; "Nov"; "Dec"].
Proof.
  intros df.
  assert (Hin : forall s, In s (severity_options df) <->
                  exists r, In r (rows df) /\ severity r = s).
  { intros s. rewrite severity_options_In. unfold column. rewrite in_map_iff.
    split; intros [r [H1 H2]]; exists r; auto. }
  split; [exact Hin|]. split; [apply severity_options_NoDup|].
  split; [apply sort_by_sorted, String.leb_total|].
  split; [|split; reflexivity].
  intros s Hs. apply Hin in Hs as [r [Hr <-]].
  unfold df, feature_engineering in Hr; simpl in Hr.
  apply in_map_iff in Hr as [raw [<- _]].
  rewrite severity_engineer. apply priority_rule_label.
Qed.

(** C4 as stated fails for the severity selector: when the only record has
    no victims, No Injury is the only severity offered. *)
Lemma severity_options_only_observed :
  let df := feature_engineering [sample_unhurt] in
  severity_options df = ["No Injury"]
  /\ ~ (forall s, In s severity_labels -> In s (severity_options df)).
Proof.
  split; [vm_compute; reflexivity|].
  intros Hall.
  assert (H : In "Fatal" (severity_options (feature_engineering [sample_unhurt])))
    by (apply Hall; left; reflexivity).
  vm_compute in H. destruct H as [H|[]]. discriminate H.
Qed.

(** ** Weekday distribution and cross-tabulation *)

Lemma weekday_order_NoDup : NoDup weekday_order.
Proof.
  unfold weekday_order.
  repeat (constructor; [simpl; intuition discriminate|]). constructor.
Qed.

Lemma filtered_weekday_known (csv : list raw_row) (sel : selection) :
  Forall (fun r => exists w, weekday r = Some w /\ In w weekday_order)
    (rows (df_filtered (feature_engineering csv) sel)).
Proof.
  apply Forall_forall. intros r Hr.
  rewrite df_filtered_rows, filter_In in Hr. destruct Hr as [Hin Hpass].
  apply passes_spec in Hpass as (_ & (w & Ew & _) & _).
  exists w. split; [exact Ew|].
  unfold feature_engineering in Hin; simpl in Hin.
  apply in_map_iff in Hin as [raw [<- _]].
  simpl in Ew. eapply Categorical_Some; exact Ew.
Qed.

Lemma filter_all {A : Type} (p : A -> bool) (l : list A) :
  Forall (fun x => p x = true) l -> filter p l = l.
Proof.
  induction 1 as [|x t Hx _ IH]; simpl; [reflexivity|].
  rewrite Hx, IH; reflexivity.
Qed.

Lemma nansum_Some {A : Type} (f : A -> nat) (l : list A) :
  nansum (map (fun x => Some (f x)) l) = list_sum (map f l).
Proof.
  induction l as [|x t IH]; simpl; [reflexivity | rewrite IH; reflexivity].
Qed.

(** When every record has one of the categories as its weekday, the counts
    per weekday add up to the number of records. *)
Lemma weekday_counts_total (categories : list string) (l : list row) :
  NoDup categories ->
  Forall (fun r => exists w, weekday r = Some w /\ In w categories) l ->
  list_sum (map (fun w => weekday_count w l) categories) = List.length l.
Proof.
  intros Hnd Hknown.
  erewrite map_ext; [|intros w; apply weekday_count_count_of].
  rewrite <- (length_map weekday l).
  rewrite <- (count_partition option_string_eqb option_string_eqb_eq
                (map Some categories) (map weekday l)).
  - rewrite map_map. reflexivity.
  - apply Finite.Injective_map_NoDup; [|exact Hnd].
    intros a b H; injection H; auto.
  - intros x Hx. apply in_map_iff in Hx as [r [<- Hr]].
    rewrite Forall_forall in Hknown.
    destruct (Hknown r Hr) as [w [-> Hw]]. apply in_map; exact Hw.
Qed.

Lemma weekday_data_tabulated (filtered : DataFrame) :
  NoDup (weekday_categories filtered) ->
  weekday_data (weekday_categories filtered) filtered
  = map (fun w => (w, Some (weekday_count w (rows filtered))))
      (weekday_categories filtered).
Proof.
  intros Hnd. unfold weekday_data, reindex, value_counts_categorical.
  apply map_ext_in. intros w Hw. f_equal.
  unfold sort_values_descending.
  set (tab := map (fun c => (c, count_of option_string_eqb (Some c)
                                  (column weekday filtered)))
                  (weekday_categories filtered)).
  rewrite <- (lookup_perm String.eqb String.eqb_eq w tab).
  - unfold tab.
    rewrite (lookup_tabulate String.eqb String.eqb_eq
               (fun c => count_of option_string_eqb (Some c) (column weekday filtered)))
      by exact Hw.
    rewrite weekday_count_count_of. reflexivity.
  - unfold tab. rewrite map_map; simpl. rewrite map_id. exact Hnd.
  - apply Permutation_sym, sort_by_perm.
Qed.

Lemma cell_count_grouped (w : string) (h : Z) (l : list row) :
  cell_count w h (filter has_weekday l) = cell_count w h l.
Proof.
  unfold cell_count, has_weekday.
  induction l as [|r t IH]; simpl; [reflexivity|].
  destruct (weekday r) as [x|] eqn:E; simpl; rewrite ?E; simpl; [|exact IH].
  destruct ((x =? w)%string && (hour r =? h)); simpl; rewrite IH; reflexivity.
Qed.

Lemma cell_count_count_of (w : string) (h : Z) (l : list row) :
  cell_count w h l
  = count_of Z.eqb h
      (map hour (filter (fun r => option_string_eqb (weekday r) (Some w)) l)).
Proof.
  rewrite count_of_map. unfold cell_count.
  induction l as [|r t IH]; simpl; [reflexivity|].
  destruct (option_string_eqb (weekday r) (Some w)); simpl; [|exact IH].
  rewrite (Z.eqb_sym h). destruct (hour r =? h); simpl; rewrite IH; reflexivity.
Qed.

Lemma pivot_hours_In (l : list row) (h : Z) :
  In h (sort_by Z.leb (unique Z.eqb (map hour l))) <-> In h (map hour l).
Proof.
  rewrite <- (unique_In Z.eqb Z_eqb_eq h (map hour l)).
  split; apply Permutation_in; [|apply Permutation_sym]; apply sort_by_perm.
Qed.

Lemma pivot_hours_NoDup (l : list row) :
  NoDup (sort_by Z.leb (unique Z.eqb (map hour l))).
Proof.
  eapply Permutation_NoDup; [apply Permutation_sym, sort_by_perm|].
  apply (unique_NoDup Z.eqb Z_eqb_eq).
Qed.

Lemma pivot_hours_ascending (l : list row) :
  StronglySorted Z.lt (sort_by Z.leb (unique Z.eqb (map hour l))).
Proof.
  rewrite <- (map_id (sort_by _ _)).
  apply strictly_ascending.
  - apply sort_by_sorted. intros a b. rewrite !Z.leb_le. lia.
  - rewrite map_id. apply pivot_hours_NoDup.
Qed.

(** The cells of one weekday add up to the records of that weekday. *)
Lemma heatmap_row_total (w : string) (l : list row) :
  list_sum (map (fun h => cell_count w h l)
              (sort_by Z.leb (unique Z.eqb (map hour (filter has_weekday l)))))
  = weekday_count w l.
Proof.
  erewrite map_ext; [|intros h; apply cell_count_count_of].
  rewrite (count_partition Z.eqb Z_eqb_eq).
  - rewrite length_map. reflexivity.
  - apply pivot_hours_NoDup.
  - intros h Hh. apply pivot_hours_In.
    apply in_map_iff in Hh as [r [<- Hr]]. apply in_map.
    apply filter_In in Hr as [Hr Hw]. apply filter_In. split; [exact Hr|].
    apply option_string_eqb_eq in Hw. unfold has_weekday. rewrite Hw. reflexivity.
Qed.

(** A weekday occurs among the grouped rows when its count is not 0. *)
Lemma weekday_present (w : string) (l : list row) :
  existsb (fun r => option_string_eqb (weekday r) (Some w)) (filter has_weekday l)
  = negb (weekday_count w l =? 0)%nat.
Proof.
  unfold weekday_count, has_weekday.
  induction l as [|r t IH]; simpl; [reflexivity|].
  destruct (weekday r) as [x|] eqn:E; simpl; rewrite ?E; simpl; [|exact IH].
  destruct (x =? w)%string; simpl; [reflexivity | exact IH].
Qed.

Lemma weekday_absent_cell (w : string) (h : Z) (l : list row) :
  weekday_count w l = 0%nat -> cell_count w h l = 0%nat.
Proof.
  unfold weekday_count, cell_count.
  induction l as [|r t IH]; simpl; [reflexivity|].
  destruct (option_string_eqb (weekday r) (Some w)); simpl;
    [discriminate | exact IH].
Qed.

Lemma nansum_None {A : Type} (l : list A) :
  nansum (map (fun _ => @None nat) l) = 0%nat.
Proof.
  induction l as [|x t IH]; simpl; [reflexivity | exact IH].
Qed.

(** The cells of the heat map, row by row, when the options are the
    categories of the weekday column.  A weekday without records has a row
    of NaN when the pivot only has the observed categories. *)
Lemma heatmap_cells (observed : bool) (filtered : DataFrame) :
  let grouped := filter has_weekday (rows filtered) in
  let hours := sort_by Z.leb (unique Z.eqb (map hour grouped)) in
  t_cells (heatmap_data observed (weekday_categories filtered) filtered)
  = map (fun w => if observed && (weekday_count w (rows filtered) =? 0)%nat
                  then map (fun _ => None) hours
                  else map (fun h => Some (cell_count w h (rows filtered))) hours)
      (weekday_categories filtered).
Proof.
  intros grouped hours.
  unfold heatmap_data, reindex_rows, fillna, pivot_table.
  cbn [t_index t_columns t_cells]. fold grouped. fold hours.
  apply map_ext_in. intros w Hw. rewrite map_map.
  destruct observed; cbn [andb].
  - set (labels := filter _ (weekday_categories filtered)).
    rewrite (combine_tabulate
               (fun w0 => map (fun c => match c with
                                        | Some n => Some n
                                        | None => Some 0%nat
                                        end)
                            (map (fun h => if (cell_count w0 h grouped =? 0)%nat
                                           then None
                                           else Some (cell_count w0 h grouped))
                                 hours))).
    destruct (weekday_count w (rows filtered) =? 0)%nat eqn:Ecount.
    + rewrite (lookup_absent String.eqb String.eqb_eq); [reflexivity|].
      rewrite map_map; cbn [fst]. rewrite map_id. unfold labels.
      rewrite filter_In. intros [_ Hpresent].
      unfold grouped in Hpresent.
      rewrite weekday_present, Ecount in Hpresent. discriminate Hpresent.
    + rewrite (lookup_tabulate String.eqb String.eqb_eq).
      * rewrite map_map. apply map_ext. intros h.
        unfold grouped. rewrite cell_count_grouped.
        destruct (cell_count w h (rows filtered) =? 0)%nat eqn:Ecell;
          [apply Nat.eqb_eq in Ecell; rewrite Ecell|]; reflexivity.
      * unfold labels. apply filter_In. split; [exact Hw|].
        unfold grouped. rewrite weekday_present, Ecount. reflexivity.
  - rewrite (combine_tabulate
               (fun w0 => map (fun c => match c with
                                        | Some n => Some n
                                        | None => Some 0%nat
                                        end)
                            (map (fun h => Some (cell_count w0 h grouped)) hours))).
    rewrite (lookup_tabulate String.eqb String.eqb_eq _ w _ Hw).
    rewrite map_map. apply map_ext. intros h.
    unfold grouped. rewrite cell_count_grouped. reflexivity.
Qed.

Lemma heatmap_columns (observed : bool) (options : list string)
    (filtered : DataFrame) :
  t_columns (heatmap_data observed options filtered)
  = sort_by Z.leb (unique Z.eqb (map hour (filter has_weekday (rows filtered)))).
Proof. reflexivity. Qed.

Lemma heatmap_cell (observed : bool) (filtered : DataFrame) (w : string) (h : Z) :
  In w (weekday_categories filtered) ->
  In h (t_columns (heatmap_data observed (weekday_categories filtered) filtered)) ->
  cell (heatmap_data observed (weekday_categories filtered) filtered) w h
  = Some (if observed && (weekday_count w (rows filtered) =? 0)%nat
          then None
          else Some (cell_count w h (rows filtered))).
Proof.
  intros Hw Hh. unfold cell.
  rewrite heatmap_cells. rewrite heatmap_columns in *.
  replace (t_index (heatmap_data observed (weekday_categories filtered) filtered))
    with (weekday_categories filtered) by reflexivity.
  set (hours := sort_by Z.leb _) in *.
  rewrite (combine_tabulate
             (fun w0 => if observed && (weekday_count w0 (rows filtered) =? 0)%nat
                        then map (fun _ => None) hours
                        else map (fun h0 => Some (cell_count w0 h0 (rows filtered)))
                               hours)).
  rewrite (lookup_tabulate String.eqb String.eqb_eq _ w _ Hw).
  destruct (observed && (weekday_count w (rows filtered) =? 0)%nat).
  - rewrite (combine_tabulate (fun _ : Z => @None nat)).
    rewrite (lookup_tabulate Z.eqb Z_eqb_eq _ h _ Hh). reflexivity.
  - rewrite (combine_tabulate (fun h0 => Some (cell_count w h0 (rows filtered)))).
    rewrite (lookup_tabulate Z.eqb Z_eqb_eq _ h _ Hh). reflexivity.
Qed.

Lemma grand_total_list_sum (t : Table) :
  grand_total t = list_sum (map nansum (t_cells t)).
Proof.
  unfold grand_total. induction (t_cells t) as [|r l IH]; simpl; [reflexivity|].
  rewrite IH; reflexivity.
Qed.

(** A row of the heat map adds up to the records of its weekday, also when
    it is a row of NaN. *)
Lemma heatmap_row_nansum (observed : bool) (w : string) (l : list row) :
  let hours := sort_by Z.leb (unique Z.eqb (map hour (filter has_weekday l))) in
  nansum (if observed && (weekday_count w l =? 0)%nat
          then map (fun _ => None) hours
          else map (fun h => Some (cell_count w h l)) hours)
  = weekday_count w l.
Proof.
  intros hours.
  destruct (weekday_count w l =? 0)%nat eqn:Ecount.
  - apply Nat.eqb_eq in Ecount. destruct observed; cbn [andb].
    + rewrite nansum_None. symmetry; exact Ecount.
    + rewrite nansum_Some. apply heatmap_row_total.
  - rewrite andb_false_r, nansum_Some. apply heatmap_row_total.
Qed.

(** Every record with a known weekday is counted in one cell. *)
Lemma heatmap_grand_total (observed : bool) (filtered : DataFrame) :
  NoDup (weekday_categories filtered) ->
  Forall (fun r => exists w, weekday r = Some w /\ In w (weekday_categories filtered))
    (rows filtered) ->
  grand_total (heatmap_data observed (weekday_categories filtered) filtered)
  = List.length (rows filtered).
Proof.
  intros Hnd Hknown.
  rewrite grand_total_list_sum, heatmap_cells, map_map.
  erewrite map_ext; [|intros w; apply heatmap_row_nansum].
  apply weekday_counts_total; assumption.
Qed.

Lemma filtered_grouped (csv : list raw_row) (sel : selection) :
  let filtered := df_filtered (feature_engineering csv) sel in
  filter has_weekday (rows filtered) = rows filtered.
Proof.
  intros filtered. apply filter_all.
  eapply Forall_impl; [|apply filtered_weekday_known].
  intros r [w [Ew _]]. unfold has_weekday. rewrite Ew. reflexivity.
Qed.



Lemma hourly_data_total (filtered : DataFrame) :
  list_sum (map snd (hourly_data filtered)) = List.length (rows filtered).
Proof.
  rewrite (list_sum_perm _ _ (Permutation_map snd (hourly_data_perm filtered))).
  unfold tabulate_counts. rewrite map_map; simpl.
  rewrite (count_partition Z.eqb Z_eqb_eq).
  - apply length_map.
  - apply (unique_NoDup Z.eqb Z_eqb_eq).
  - intros h Hh. apply (unique_In Z.eqb Z_eqb_eq). exact Hh.
Qed.

Lemma weekday_data_total (filtered : DataFrame) :
  NoDup (weekday_categories filtered) ->
  Forall (fun r => exists w, weekday r = Some w /\ In w (weekday_categories filtered))
    (rows filtered) ->
  nansum (map snd (weekday_data (weekday_categories filtered) filtered))
  = List.length (rows filtered).
Proof.
  intros Hnd Hknown.
  rewrite weekday_data_tabulated by exact Hnd.
  rewrite map_map; simpl. rewrite nansum_Some.
  apply weekday_counts_total; assumption.
Qed.

(** C8. For a filtered frame, the counts of the hourly distribution add up to
    the number of its records, so do the counts of the weekday distribution,
    and so do all the cells of the weekday by hour cross-tabulation, under
    either default of pandas. *)
Theorem distributions_add_up (observed : bool) (csv : list raw_row)
    (sel : selection) :
  let df := feature_engineering csv in
  let filtered := df_filtered df sel in
  list_sum (map snd (hourly_data filtered)) = total_accidents filtered
  /\ nansum (map snd (weekday_data (weekday_options df) filtered))
     = total_accidents filtered
  /\ grand_total (heatmap_data observed (weekday_options df) filtered)
     = total_accidents filtered.
Proof.
  intros df filtered. unfold total_accidents.
  split; [apply hourly_data_total|].
  change (weekday_options df) with (weekday_categories filtered).
  split.
  - apply weekday_data_total;
      [apply weekday_order_NoDup | apply filtered_weekday_known].
  - apply heatmap_grand_total;
      [apply weekday_order_NoDup | apply filtered_weekday_known].
Qed.

(** ** The run of the script *)

Lemma empty_rows (df : DataFrame) : empty df = true <-> rows df = [].
Proof.
  unfold empty. destruct (rows df); split; intros H; try reflexivity; discriminate.
Qed.

(** C7. When no record passes the filter the script shows the warning, which
    is not the error of a missing file, and stops there: no metric, no map
    and no chart is computed.  When some record passes, the script goes on
    and shows the four metrics, the map and the four charts, all computed
    from the filtered frame. *)
Theorem empty_result_stops (observed : bool) (csv : list raw_row)
    (sel : selection) :
  let df := feature_engineering csv in
  let filtered := df_filtered df sel in
  let sidebar :=
    [ sidebar_multiselect "Filter by Accident Severity"
        (severity_options df) (severity_options df);
      sidebar_slider "Filter by Hour of Day" 0 23 (0, 23);
      sidebar_multiselect "Filter by Weekday" weekday_order weekday_order;
      sidebar_multiselect "Filter by Month" month_order month_order ] in
  let views :=
    [ metric "Total Accidents" (Z.of_nat (List.length (rows filtered)));
      metric "Total Fatalities" (int64_wrap (sigma fatalities_30d (rows filtered)));
      metric "Serious Injuries"
        (int64_wrap (sigma serious_injuries_30d (rows filtered)));
      metric "Minor Injuries" (int64_wrap (sigma minor_injuries_30d (rows filtered)));
      st_folium (map circle_marker (rows filtered));
      plotly_chart (fig_hour (hourly_data filtered));
      plotly_chart (fig_day (weekday_data weekday_order filtered));
      plotly_chart (fig_sev (severity_data filtered));
      plotly_chart (fig_heatmap (heatmap_data observed weekday_order filtered)) ] in
  dashboard {| csv_file := Some csv; widgets := sel; observed_default := observed |}
  = (if empty filtered
     then (sidebar ++ [st_warning no_data_warning], None)
     else (sidebar ++ views, Some tt))
  /\ (empty filtered = true <-> rows filtered = [])
  /\ Forall (fun e => is_aggregate e = false /\ forall body, e <> st_error body)
       (sidebar ++ [st_warning no_data_warning]).
Proof.
  intros df filtered sidebar views.
  split; [|split; [apply empty_rows|]].
  - unfold dashboard, load_data; simpl.
    fold df. fold filtered.
    unfold total_fatalities, total_serious_injuries, total_minor_injuries,
      total_accidents, column.
    rewrite !series_sum_wrap.
    destruct (empty filtered); reflexivity.
  - unfold sidebar; simpl.
    repeat (constructor; [split; [reflexivity | intros body; discriminate]|]).
    constructor.
Qed.

(** * Further properties of the script *)

(** ** How a run ends *)

Lemma dashboard_loaded (observed : bool) (csv : list raw_row) (sel : selection) :
  let df := feature_engineering csv in
  let filtered := df_filtered df sel in
  dashboard {| csv_file := Some csv; widgets := sel; observed_default := observed |}
  = if empty filtered
    then (sidebar df ++ [st_warning no_data_warning], None)
    else (sidebar df ++ main_page observed df filtered, Some tt).
Proof.
  intros df filtered. unfold dashboard, load_data; simpl.
  fold df. fold filtered. destruct (empty filtered); reflexivity.
Qed.

Lemma sidebar_no_error (df : DataFrame) (body : string) :
  ~ In (st_error body) (sidebar df).
Proof.
  unfold sidebar; simpl. intros H.
  repeat (destruct H as [H|H]; [discriminate H|]). exact H.
Qed.

Lemma main_page_no_error (observed : bool) (df filtered : DataFrame)
    (body : string) :
  ~ In (st_error body) (main_page observed df filtered).
Proof.
  unfold main_page; simpl. intros H.
  repeat (destruct H as [H|H]; [discriminate H|]). exact H.
Qed.

(** X1. Without the CSV file the script shows the error and the hint and
    stops before any widget exists, whatever the widget state was.  A run
    shows an error only in that case, and it reaches its end exactly when
    the file is there and some record passes the filter. *)
Theorem run_outcome (s : session) :
  (csv_file s = None <->
     dashboard s
     = ([ st_error "Error: The data file 'data/Road_Accidents_Lisbon.csv' was not found.";
          st_info "Please make sure the 'Road_Accidents_Lisbon.csv' file is inside a folder named 'data'." ],
        None))
  /\ (csv_file s = None <-> exists body, In (st_error body) (fst (dashboard s)))
  /\ (snd (dashboard s) = Some tt <->
      exists csv, csv_file s = Some csv
        /\ rows (df_filtered (feature_engineering csv) (widgets s)) <> []).
Proof.
  destruct s as [[csv|] sel observed]; cbn [csv_file widgets].
  - pose proof (dashboard_loaded observed csv sel) as Hrun. cbv zeta in Hrun.
    pose proof (empty_rows (df_filtered (feature_engineering csv) sel)) as Hempty.
    rewrite Hrun.
    destruct (empty (df_filtered (feature_engineering csv) sel)); cbn [fst snd].
    + split; [split; intros H; discriminate H|].
      split.
      * split; [discriminate|]. intros [body Hin]. exfalso.
        apply in_app_or in Hin as [Hin|Hin];
          [exact (sidebar_no_error _ _ Hin)|].
        destruct Hin as [Hin|[]]; discriminate Hin.
      * split; [discriminate|]. intros [csv' [E Hne]].
        injection E as <-. exfalso. apply Hne, Hempty. reflexivity.
    + split; [split; intros H; discriminate H|].
      split.
      * split; [discriminate|]. intros [body Hin]. exfalso.
        apply in_app_or in Hin as [Hin|Hin];
          [exact (sidebar_no_error _ _ Hin) | exact (main_page_no_error _ _ _ _ Hin)].
      * split; [|reflexivity]. intros _. exists csv. split; [reflexivity|].
        intros E. apply Hempty in E. discriminate E.
  - split; [split; reflexivity|]. split.
    + split; [|reflexivity]. intros _. eexists. left. reflexivity.
    + split; [discriminate|]. intros [csv [E _]]. discriminate E.
Qed.

(** ** Filtering once more *)

Lemma filter_filter_andb {A : Type} (p q : A -> bool) (l : list A) :
  filter q (filter p l) = filter (fun x => p x && q x) l.
Proof.
  induction l as [|x t IH]; simpl; [reflexivity|].
  destruct (p x); simpl; [destruct (q x)|]; rewrite IH; reflexivity.
Qed.

Lemma filter_length_le {A : Type} (p q : A -> bool) (l : list A) :
  (forall x, In x l -> p x = true -> q x = true) ->
  (List.length (filter p l) <= List.length (filter q l))%nat.
Proof.
  induction l as [|x t IH]; simpl; intros Himp; [lia|].
  assert (IH' := IH (fun y Hy => Himp y (or_intror Hy))).
  destruct (p x) eqn:Ep.
  - rewrite (Himp x (or_introl eq_refl) Ep). simpl. lia.
  - destruct (q x); simpl; lia.
Qed.

Lemma DataFrame_eq (a b : DataFrame) :
  rows a = rows b ->
  weekday_categories a = weekday_categories b ->
  month_categories a = month_categories b ->
  a = b.
Proof.
  destruct a, b; simpl; intros -> -> ->; reflexivity.
Qed.

(** X2. Filtering a filtered frame keeps the records that pass both
    selections, so the order of two filters does not matter, and filtering
    again with the same selection changes nothing. *)
Theorem filter_twice (df : DataFrame) (sel1 sel2 : selection) :
  rows (df_filtered (df_filtered df sel1) sel2)
  = filter (fun r => passes sel1 r && passes sel2 r) (rows df)
  /\ df_filtered (df_filtered df sel1) sel2 = df_filtered (df_filtered df sel2) sel1
  /\ df_filtered (df_filtered df sel1) sel1 = df_filtered df sel1.
Proof.
  assert (Hboth : forall s1 s2,
            rows (df_filtered (df_filtered df s1) s2)
            = filter (fun r => passes s1 r && passes s2 r) (rows df)).
  { intros s1 s2. rewrite !df_filtered_rows. apply filter_filter_andb. }
  split; [apply Hboth|]. split.
  - apply DataFrame_eq; try reflexivity.
    rewrite !Hboth. apply filter_ext. intros r. apply andb_comm.
  - apply DataFrame_eq; try reflexivity.
    rewrite Hboth, df_filtered_rows. apply filter_ext. intros r.
    destruct (passes sel1 r); reflexivity.
Qed.

Lemma passes_widen (narrow wide : selection) (r : row) :
  incl (selected_severity narrow) (selected_severity wide) ->
  incl (selected_weekdays narrow) (selected_weekdays wide) ->
  incl (selected_months narrow) (selected_months wide) ->
  fst (hour_range wide) <= fst (hour_range narrow) ->
  snd (hour_range narrow) <= snd (hour_range wide) ->
  passes narrow r = true -> passes wide r = true.
Proof.
  intros Hs Hw Hm Hlo Hhi. rewrite !passes_spec.
  intros (H1 & (w & Ew & H2) & (m & Em & H3) & H4).
  split; [apply Hs, H1|].
  split; [exists w; split; [exact Ew | apply Hw, H2]|].
  split; [exists m; split; [exact Em | apply Hm, H3]|]. lia.
Qed.

(** X3. Selecting more never loses a record: when a selection offers at
    least the severities, weekdays and months of another and its hour range
    contains the other's, every record of the narrower result is in the wider
    one, the wider one has at least as many records, and narrowing the wider
    result gives the narrower result. *)
Theorem filter_monotone (df : DataFrame) (narrow wide : selection) :
  incl (selected_severity narrow) (selected_severity wide) ->
  incl (selected_weekdays narrow) (selected_weekdays wide) ->
  incl (selected_months narrow) (selected_months wide) ->
  fst (hour_range wide) <= fst (hour_range narrow) ->
  snd (hour_range narrow) <= snd (hour_range wide) ->
  incl (rows (df_filtered df narrow)) (rows (df_filtered df wide))
  /\ (total_accidents (df_filtered df narrow) <= total_accidents (df_filtered df wide))%nat
  /\ df_filtered (df_filtered df wide) narrow = df_filtered df narrow.
Proof.
  intros Hs Hw Hm Hlo Hhi.
  assert (Himp : forall r, passes narrow r = true -> passes wide r = true)
    by (intros r; apply passes_widen; assumption).
  split; [|split].
  - intros r. rewrite !df_filtered_rows, !filter_In.
    intros [Hin Hp]. split; [exact Hin | apply Himp, Hp].
  - unfold total_accidents. rewrite !df_filtered_rows.
    apply filter_length_le. intros r _. apply Himp.
  - apply DataFrame_eq; try reflexivity.
    rewrite !df_filtered_rows, filter_filter_andb. apply filter_ext. intros r.
    destruct (passes narrow r) eqn:Ep; [rewrite (Himp r Ep)|rewrite andb_false_r];
      reflexivity.
Qed.

(** Fatal accidents on Monday morning, within everything. *)
Lemma filter_monotone_witness :
  let narrow := {| selected_severity := ["Fatal"]; hour_range := (6, 12);
                   selected_weekdays := ["Monday"]; selected_months := ["Mar"] |} in
  (total_accidents (df_filtered (feature_engineering sample_csv) narrow)
   <= total_accidents (df_filtered (feature_engineering sample_csv) everything))%nat.
Proof.
  intros narrow.
  apply (filter_monotone (feature_engineering sample_csv) narrow everything).
  - intros s [<-|[]]. simpl; auto.
  - intros s [<-|[]]. simpl; auto.
  - intros s [<-|[]]. simpl; auto.
  - simpl; lia.
  - simpl; lia.
Defined.

(** X4. A selection that leaves a multiselect empty, or whose hour range has
    its lower end above its upper end, lets no record through: the script
    then shows the sidebar and the warning and stops. *)
Theorem nothing_selected (observed : bool) (csv : list raw_row)
    (sel : selection) :
  selected_severity sel = [] \/ selected_weekdays sel = []
  \/ selected_months sel = [] \/ snd (hour_range sel) < fst (hour_range sel) ->
  rows (df_filtered (feature_engineering csv) sel) = []
  /\ dashboard {| csv_file := Some csv; widgets := sel;
                  observed_default := observed |}
     = (sidebar (feature_engineering csv) ++ [st_warning no_data_warning], None).
Proof.
  intros Hnone.
  assert (Hrows : rows (df_filtered (feature_engineering csv) sel) = []).
  { rewrite df_filtered_rows.
    destruct (filter (passes sel) (rows (feature_engineering csv))) as [|r t] eqn:E;
      [reflexivity|].
    assert (Hr : In r (filter (passes sel) (rows (feature_engineering csv))))
      by (rewrite E; left; reflexivity).
    apply filter_In in Hr as [_ Hp].
    apply passes_spec in Hp as (H1 & (w & _ & H2) & (m & _ & H3) & H4).
    destruct Hnone as [H|[H|[H|H]]];
      [rewrite H in H1 | rewrite H in H2 | rewrite H in H3 | lia]; contradiction. }
  split; [exact Hrows|].
  pose proof (dashboard_loaded observed csv sel) as Hrun. cbv zeta in Hrun.
  rewrite Hrun.
  apply empty_rows in Hrows. rewrite Hrows. reflexivity.
Qed.

(** No weekday selected. *)
Lemma nothing_selected_witness :
  let sel := {| selected_severity := severity_labels; hour_range := (0, 23);
                selected_weekdays := []; selected_months := month_order |} in
  rows (df_filtered (feature_engineering sample_csv) sel) = [].
Proof.
  intros sel.
  apply (nothing_selected false sample_csv sel). right; left; reflexivity.
Defined.

Lemma filter_keeps_all {A : Type} (p : A -> bool) (l : list A) :
  filter p l = l <-> Forall (fun x => p x = true) l.
Proof.
  split; [|apply filter_all].
  induction l as [|x t IH]; simpl; intros E; [constructor|].
  destruct (p x) eqn:Ep.
  - injection E as E. constructor; [exact Ep | apply IH, E].
  - exfalso.
    assert (Hle := filter_length_le p (fun _ => true) t (fun _ _ _ => eq_refl)).
    rewrite E in Hle. simpl in Hle.
    rewrite (filter_all (fun _ => true) t) in Hle
      by (apply Forall_forall; reflexivity).
    lia.
Qed.

Lemma has_weekday_engineer (r : raw_row) :
  has_weekday (engineer r) = true <-> In (raw_weekday r) weekday_order.
Proof.
  unfold has_weekday, engineer, Categorical; cbn [weekday].
  rewrite <- mem_string_In.
  destruct (mem_string (raw_weekday r) weekday_order);
    split; intros H; try reflexivity; discriminate.
Qed.

Lemma has_month_engineer (r : raw_row) :
  has_month (engineer r) = true <-> In (raw_month r) month_order.
Proof.
  unfold has_month, engineer, Categorical; cbn [month].
  rewrite <- mem_string_In.
  destruct (mem_string (raw_month r) month_order);
    split; intros H; try reflexivity; discriminate.
Qed.

Lemma passes_default (csv : list raw_row) (r : raw_row) :
  In r csv ->
  passes (default_selection (feature_engineering csv)) (engineer r)
  = has_weekday (engineer r) && has_month (engineer r)
    && (0 <=? raw_hour r) && (raw_hour r <=? 23).
Proof.
  intros Hin. unfold passes. cbn [default_selection selected_severity
    selected_weekdays selected_months hour_range fst snd].
  assert (Hsev : mem_string (severity (engineer r))
                   (severity_options (feature_engineering csv)) = true).
  { apply mem_string_In, severity_options_In. unfold column; simpl.
    apply in_map_iff. exists (engineer r). split; [reflexivity|].
    apply in_map; exact Hin. }
  rewrite Hsev. unfold has_weekday, has_month, weekday_options, month_options.
  cbn [feature_engineering weekday_categories month_categories engineer
       weekday month hour andb].
  unfold Categorical.
  destruct (mem_string (raw_weekday r) weekday_order) eqn:Ew;
    destruct (mem_string (raw_month r) month_order) eqn:Em;
    rewrite ?Ew, ?Em; reflexivity.
Qed.

(** X5. With every widget as the script sets it up, the filter keeps the
    records that have a weekday and a month among the categories and an hour
    from 0 to 23, and drops the others.  So the untouched dashboard shows
    the whole file exactly when every line of the file is of that kind. *)
Theorem default_filter (csv : list raw_row) :
  let df := feature_engineering csv in
  rows (df_filtered df (default_selection df))
  = filter (fun r => has_weekday r && has_month r && (0 <=? hour r) && (hour r <=? 23))
      (rows df)
  /\ (df_filtered df (default_selection df) = df <->
      Forall (fun r => In (raw_weekday r) weekday_order
                       /\ In (raw_month r) month_order
                       /\ 0 <= raw_hour r <= 23) csv).
Proof.
  intros df.
  assert (Hrows : rows (df_filtered df (default_selection df))
                  = filter (fun r => has_weekday r && has_month r
                                     && (0 <=? hour r) && (hour r <=? 23)) (rows df)).
  { rewrite df_filtered_rows. apply filter_ext_in. intros r Hr.
    unfold df, feature_engineering in Hr; simpl in Hr.
    apply in_map_iff in Hr as [raw [<- Hraw]].
    apply passes_default; exact Hraw. }
  split; [exact Hrows|].
  transitivity (rows (df_filtered df (default_selection df)) = rows df).
  - split; [intros ->; reflexivity|].
    intros E. apply DataFrame_eq; [exact E | reflexivity | reflexivity].
  - rewrite Hrows, filter_keeps_all.
    unfold df, feature_engineering; simpl. rewrite Forall_map.
    split; apply Forall_impl; intros r;
      rewrite !andb_true_iff, has_weekday_engineer, has_month_engineer, !Z.leb_le;
      simpl; tauto.
Qed.

(** ** The charts of a filtered frame *)

Lemma filtered_hour_in_range (df : DataFrame) (sel : selection) (r : row) :
  In r (rows (df_filtered df sel)) ->
  fst (hour_range sel) <= hour r <= snd (hour_range sel).
Proof.
  rewrite df_filtered_rows, filter_In, passes_spec. tauto.
Qed.

Lemma hourly_data_keys (filtered : DataFrame) (h : Z) :
  In h (map fst (hourly_data filtered)) <-> In h (column hour filtered).
Proof.
  rewrite <- (unique_In Z.eqb Z_eqb_eq h (column hour filtered)).
  rewrite <- (tabulate_counts_keys Z.eqb (column hour filtered)).
  split; apply Permutation_in; [|apply Permutation_sym];
    apply Permutation_map, hourly_data_perm.
Qed.

(** X6. The hour chart and the heat map of a filtered frame only have hours
    inside the selected hour range. *)
Theorem charts_within_hour_range (observed : bool) (df : DataFrame)
    (sel : selection) :
  let filtered := df_filtered df sel in
  Forall (fun h => fst (hour_range sel) <= h <= snd (hour_range sel))
    (map fst (hourly_data filtered))
  /\ Forall (fun h => fst (hour_range sel) <= h <= snd (hour_range sel))
       (t_columns (heatmap_data observed (weekday_options df) filtered)).
Proof.
  intros filtered. split; apply Forall_forall; intros h Hh.
  - apply hourly_data_keys in Hh. unfold column in Hh.
    apply in_map_iff in Hh as [r [<- Hr]].
    apply (filtered_hour_in_range df sel r Hr).
  - rewrite heatmap_columns in Hh. apply pivot_hours_In in Hh.
    apply in_map_iff in Hh as [r [<- Hr]]. apply filter_In in Hr as [Hr _].
    apply (filtered_hour_in_range df sel r Hr).
Qed.

(** X7. When the slider is set to a single hour and some record passes, the
    hour chart has one bar, at that hour, as high as the number of records
    shown. *)
Theorem single_hour_bar (df : DataFrame) (sel : selection) (h : Z) :
  hour_range sel = (h, h) ->
  rows (df_filtered df sel) <> [] ->
  hourly_data (df_filtered df sel) = [(h, total_accidents (df_filtered df sel))].
Proof.
  intros Hrange Hne. set (filtered := df_filtered df sel).
  assert (Hhour : forall r, In r (rows filtered) -> hour r = h).
  { intros r Hr. apply filtered_hour_in_range in Hr.
    rewrite Hrange in Hr; simpl in Hr. lia. }
  assert (Hcount : hour_count h (rows filtered) = total_accidents filtered).
  { unfold hour_count, total_accidents. f_equal. apply filter_all.
    apply Forall_forall. intros r Hr. apply Z.eqb_eq, Hhour, Hr. }
  assert (Hin : In (h, total_accidents filtered) (hourly_data filtered)).
  { apply hourly_data_entries. rewrite Hcount. split; [reflexivity|].
    unfold total_accidents. fold filtered in Hne.
    destruct (rows filtered); [contradiction | simpl; lia]. }
  assert (Hkeys : forall e, In e (hourly_data filtered) ->
                            e = (h, total_accidents filtered)).
  { intros [k c] He. apply hourly_data_entries in He as [-> Hpos].
    assert (k = h).
    { rewrite hour_count_count_of in Hpos.
      apply (count_of_pos Z.eqb Z_eqb_eq) in Hpos.
      apply in_map_iff in Hpos as [r [<- Hr]]. apply Hhour, Hr. }
    subst k. rewrite Hcount. reflexivity. }
  pose proof (hourly_data_ascending filtered) as Hsorted.
  destruct (hourly_data filtered) as [|e1 [|e2 t]] eqn:E.
  - contradiction.
  - rewrite (Hkeys e1) by (left; reflexivity). reflexivity.
  - exfalso. simpl in Hsorted.
    apply StronglySorted_inv in Hsorted as [_ Hall].
    apply Forall_inv in Hall.
    rewrite (Hkeys e1), (Hkeys e2) in Hall
      by (simpl; auto). simpl in Hall. lia.
Qed.

(** Only 8 o'clock: the one record of that hour. *)
Lemma single_hour_bar_witness :
  let sel := with_hours everything (8, 8) in
  hourly_data (df_filtered (feature_engineering sample_csv) sel)
  = [(8, total_accidents (df_filtered (feature_engineering sample_csv) sel))].
Proof.
  intros sel.
  apply (single_hour_bar (feature_engineering sample_csv) sel 8).
  - reflexivity.
  - vm_compute. discriminate.
Defined.

(** X8. The weekday chart of a filtered frame has the seven weekdays from
    Monday to Sunday, each with the number of records shown for that day,
    never NaN; a weekday that is not selected has 0. *)
Theorem weekday_distribution (csv : list raw_row) (sel : selection) :
  let df := feature_engineering csv in
  let filtered := df_filtered df sel in
  weekday_data (weekday_options df) filtered
  = map (fun w => (w, Some (weekday_count w (rows filtered)))) weekday_order
  /\ (forall w, ~ In w (selected_weekdays sel) ->
        weekday_count w (rows filtered) = 0%nat).
Proof.
  intros df filtered. split.
  - apply (weekday_data_tabulated filtered), weekday_order_NoDup.
  - intros w Hnot. unfold weekday_count.
    destruct (filter _ (rows filtered)) as [|r t] eqn:E; [reflexivity|].
    exfalso.
    assert (Hr : In r (filter (fun r => option_string_eqb (weekday r) (Some w))
                         (rows filtered))) by (rewrite E; left; reflexivity).
    apply filter_In in Hr as [Hr Hw].
    apply option_string_eqb_eq in Hw.
    unfold filtered in Hr. rewrite df_filtered_rows, filter_In, passes_spec in Hr.
    destruct Hr as (_ & _ & (w' & Ew & Hsel) & _).
    rewrite Hw in Ew. injection Ew as <-. contradiction.
Qed.

Section ValueCountsFacts.
Context {K : Type} (eqb : K -> K -> bool).
Hypothesis eqb_eq : forall a b, eqb a b = true <-> a = b.

Lemma value_counts_entries (col : list K) (k : K) (c : nat) :
  In (k, c) (value_counts eqb col) <->
  c = count_of eqb k col /\ (0 < c)%nat.
Proof.
  assert (Hiff : In (k, c) (value_counts eqb col)
                 <-> In (k, c) (tabulate_counts eqb col)).
  { split; apply Permutation_in;
      [|apply Permutation_sym]; apply value_counts_perm. }
  rewrite Hiff. unfold tabulate_counts. rewrite in_map_iff. split.
  - intros [k' [Hk Hin]]. injection Hk as -> <-. split; [reflexivity|].
    apply (count_of_pos eqb eqb_eq), (unique_In eqb eqb_eq), Hin.
  - intros [-> Hpos]. exists k. split; [reflexivity|].
    apply (unique_In eqb eqb_eq), (count_of_pos eqb eqb_eq), Hpos.
Qed.

Lemma value_counts_keys_NoDup (col : list K) :
  NoDup (map fst (value_counts eqb col)).
Proof.
  eapply Permutation_NoDup.
  - apply Permutation_sym, Permutation_map, value_counts_perm.
  - rewrite tabulate_counts_keys. apply (unique_NoDup eqb eqb_eq).
Qed.

Lemma value_counts_descending (col : list K) :
  Sorted (fun a b => (snd b <= snd a)%nat) (value_counts eqb col).
Proof.
  assert (Hs : Sorted (fun a b : K * nat => (snd b <=? snd a)%nat = true)
                 (value_counts eqb col)).
  { unfold value_counts, sort_values_descending. apply sort_by_sorted.
    intros a b. rewrite !Nat.leb_le. lia. }
  induction Hs as [|a l _ IH Hhd]; constructor; [exact IH|].
  destruct Hhd as [|b l' Hab]; constructor. apply Nat.leb_le, Hab.
Qed.

Lemma value_counts_total (col : list K) :
  list_sum (map snd (value_counts eqb col)) = List.length col.
Proof.
  rewrite (list_sum_perm _ _ (Permutation_map snd (value_counts_perm eqb col))).
  unfold tabulate_counts. rewrite map_map; simpl.
  apply (count_partition eqb eqb_eq).
  - apply (unique_NoDup eqb eqb_eq).
  - intros k Hk. apply (unique_In eqb eqb_eq). exact Hk.
Qed.
End ValueCountsFacts.

Lemma severity_count_count_of (s : string) (l : list row) :
  severity_count s l = count_of String.eqb s (map severity l).
Proof.
  rewrite count_of_map. unfold severity_count. f_equal.
  apply filter_ext. intros r. apply String.eqb_sym.
Qed.

(** X9. The severity chart of a filtered frame has one slice for each
    severity that occurs among the records shown, as large as the number of
    its records, the largest slice first; the slices add up to the number of
    records, and every slice is a severity that was selected. *)
Theorem severity_distribution (df : DataFrame) (sel : selection) :
  let filtered := df_filtered df sel in
  (forall s c, In (s, c) (severity_data filtered) <->
     c = severity_count s (rows filtered) /\ (0 < c)%nat)
  /\ NoDup (map fst (severity_data filtered))
  /\ Sorted (fun a b => (snd b <= snd a)%nat) (severity_data filtered)
  /\ list_sum (map snd (severity_data filtered)) = total_accidents filtered
  /\ incl (map fst (severity_data filtered)) (selected_severity sel).
Proof.
  intros filtered. unfold severity_data.
  split; [|split; [|split; [|split]]].
  - intros s c. rewrite severity_count_count_of.
    apply (value_counts_entries String.eqb String.eqb_eq).
  - apply (value_counts_keys_NoDup String.eqb String.eqb_eq).
  - apply value_counts_descending.
  - rewrite (value_counts_total String.eqb String.eqb_eq).
    unfold column, total_accidents. apply length_map.
  - intros s Hs. apply in_map_iff in Hs as [[s' c] [Es Hin]]. simpl in Es; subst s'.
    apply (value_counts_entries String.eqb String.eqb_eq) in Hin as [-> Hpos].
    apply (count_of_pos String.eqb String.eqb_eq) in Hpos.
    apply in_map_iff in Hpos as [r [<- Hr]].
    unfold filtered in Hr. rewrite df_filtered_rows, filter_In, passes_spec in Hr.
    tauto.
Qed.

(** ** The map and the victims *)

Lemma filtered_from_csv (csv : list raw_row) (sel : selection) (r : row) :
  In r (rows (df_filtered (feature_engineering csv) sel)) ->
  exists raw, In raw csv /\ r = engineer raw.
Proof.
  rewrite df_filtered_rows, filter_In. intros [Hin _].
  unfold feature_engineering in Hin; simpl in Hin.
  apply in_map_iff in Hin as [raw [<- Hraw]]. exists raw. auto.
Qed.

(** X10. The map gets one marker for each record shown, in the same order,
    and each marker has the colour the colour map gives to its severity:
    the fallback colour gray is never used. *)
Theorem markers_of_filtered (csv : list raw_row) (sel : selection) :
  let filtered := df_filtered (feature_engineering csv) sel in
  let markers := map circle_marker (rows filtered) in
  map marker_id markers = column id filtered
  /\ Forall (fun m => In (marker_severity m, marker_color m) severity_color_map) markers
  /\ Forall (fun m => marker_color m <> "gray") markers.
Proof.
  intros filtered markers.
  split; [unfold markers, column; rewrite map_map; reflexivity|].
  assert (Hsev : forall r, In r (rows filtered) -> In (severity r) severity_labels).
  { intros r Hr. apply filtered_from_csv in Hr as [raw [_ ->]].
    rewrite severity_engineer. apply priority_rule_label. }
  split; apply Forall_forall; intros m Hm;
    apply in_map_iff in Hm as [r [<- Hr]];
    specialize (Hsev r Hr); unfold circle_marker; cbn [marker_severity marker_color];
    simpl in Hsev;
    destruct Hsev as [<-|[<-|[<-|[<-|[]]]]]; simpl; auto; discriminate.
Qed.

Lemma sigma_ext_in (f g : row -> Z) (l : list row) :
  (forall r, In r l -> f r = g r) -> sigma f l = sigma g l.
Proof.
  induction l as [|x t IH]; simpl; intros H; [reflexivity|].
  rewrite (H x (or_introl eq_refl)), IH; [reflexivity|].
  intros r Hr. apply H. right; exact Hr.
Qed.

Lemma sigma_plus (f g : row -> Z) (l : list row) :
  sigma (fun r => f r + g r) l = sigma f l + sigma g l.
Proof.
  induction l as [|x t IH]; simpl; [reflexivity | rewrite IH; lia].
Qed.

Lemma int64_wrap_sigma (g : row -> Z) (l : list row) :
  int64_wrap (sigma (fun r => int64_wrap (g r)) l) = int64_wrap (sigma g l).
Proof.
  induction l as [|r t IH]; simpl; [reflexivity|].
  rewrite int64_wrap_add_l.
  rewrite <- int64_wrap_add_r, IH, int64_wrap_add_r. reflexivity.
Qed.

Lemma int64_add_wrap (a b : Z) :
  int64_add (int64_wrap a) (int64_wrap b) = int64_wrap (a + b).
Proof.
  unfold int64_add. rewrite int64_wrap_add_l, int64_wrap_add_r. reflexivity.
Qed.

(** X11. The victims that the popups of the map report add up to the three
    victim metrics together, all sums being int64 sums: over the records
    shown, the sum of [total_victims] is what adding the fatalities, serious
    injuries and minor injuries metrics gives. *)
Theorem total_victims_of_filtered (csv : list raw_row) (sel : selection) :
  let filtered := df_filtered (feature_engineering csv) sel in
  series_sum (map marker_total_victims (map circle_marker (rows filtered)))
  = int64_add (int64_add (total_fatalities filtered)
                 (total_serious_injuries filtered))
      (total_minor_injuries filtered).
Proof.
  intros filtered.
  unfold total_fatalities, total_serious_injuries, total_minor_injuries, column.
  rewrite map_map, !series_sum_wrap. cbn [circle_marker marker_total_victims].
  rewrite !int64_add_wrap.
  set (victims := fun r => fatalities_30d r + serious_injuries_30d r
                           + minor_injuries_30d r).
  assert (Hsum : forall l, sigma fatalities_30d l + sigma serious_injuries_30d l
                           + sigma minor_injuries_30d l = sigma victims l).
  { intros l. unfold victims. induction l as [|r t IH]; simpl; lia. }
  rewrite Hsum, <- (int64_wrap_sigma victims).
  f_equal. apply sigma_ext_in.
  intros r Hr. apply filtered_from_csv in Hr as [raw [_ ->]].
  unfold victims.
  cbn [engineer total_victims fatalities_30d serious_injuries_30d
       minor_injuries_30d].
  apply int64_add_add.
Qed.

Lemma fatal_iff_fatalities (raw : raw_row) :
  String.eqb (severity (engineer raw)) "Fatal" = (0 <? raw_fatalities_30d raw).
Proof.
  rewrite severity_engineer. unfold priority_rule.
  destruct (0 <? raw_fatalities_30d raw); [reflexivity|].
  destruct (0 <? raw_serious_injuries_30d raw); [reflexivity|].
  destruct (0 <? raw_minor_injuries_30d raw); reflexivity.
Qed.

Lemma fatal_count_bound (l : list row) :
  Forall (fun r => 0 <= fatalities_30d r
                   /\ String.eqb (severity r) "Fatal" = (0 <? fatalities_30d r)) l ->
  Z.of_nat (severity_count "Fatal" l) <= sigma fatalities_30d l
  /\ (sigma fatalities_30d l = 0 <-> severity_count "Fatal" l = 0%nat).
Proof.
  unfold severity_count.
  induction 1 as [|r t [Hnn Hsev] _ [IHle IHiff]]; simpl; [split; [lia | tauto]|].
  rewrite Hsev. destruct (0 <? fatalities_30d r) eqn:E.
  - apply Z.ltb_lt in E. simpl. split; [lia|]. split; [lia | discriminate].
  - apply Z.ltb_ge in E. split; [lia|].
    replace (fatalities_30d r) with 0 by lia. simpl. exact IHiff.
Qed.

Lemma sigma_filter_le (f : row -> Z) (p q : row -> bool) (l : list row) :
  (forall r, In r l -> 0 <= f r) ->
  (forall r, p r = true -> q r = true) ->
  0 <= sigma f (filter p l) <= sigma f (filter q l).
Proof.
  intros Hnn Himp. induction l as [|r t IH]; simpl; [lia|].
  assert (Hr := Hnn r (or_introl eq_refl)).
  assert (IH' := IH (fun x Hx => Hnn x (or_intror Hx))).
  destruct (p r) eqn:Ep.
  - rewrite (Himp r Ep). simpl. lia.
  - destruct (q r); simpl; lia.
Qed.

(** The metric of a column that fits int64 is the mathematical sum over the
    records shown, and lies between 0 and the sum over the whole frame. *)
Lemma metric_exact (f : row -> Z) (df : DataFrame) (sel : selection) :
  fits_int64 f df ->
  series_sum (column f (df_filtered df sel))
  = sigma f (filter (passes sel) (rows df))
  /\ 0 <= sigma f (filter (passes sel) (rows df)) <= sigma f (rows df).
Proof.
  intros [Hnn Hsum].
  assert (Hle : 0 <= sigma f (filter (passes sel) (rows df)) <= sigma f (rows df)).
  { pose proof (sigma_filter_le f (passes sel) (fun _ => true) (rows df) Hnn
                  (fun _ _ => eq_refl)) as H.
    rewrite (filter_all (fun _ => true) (rows df)) in H
      by (apply Forall_forall; reflexivity).
    exact H. }
  split; [|exact Hle].
  unfold column. rewrite df_filtered_rows. apply series_sum_exact. lia.
Qed.

(** X12. When no line of the file has a negative number of fatalities and
    the fatalities of the whole file add up to less than 2^63, the records
    shown as Fatal are at most as many as the fatalities shown, and the
    fatalities metric is 0 exactly when no record shown is Fatal. *)
Theorem fatal_records_and_fatalities (csv : list raw_row) (sel : selection) :
  fits_int64 fatalities_30d (feature_engineering csv) ->
  let filtered := df_filtered (feature_engineering csv) sel in
  Z.of_nat (severity_count "Fatal" (rows filtered)) <= total_fatalities filtered
  /\ (total_fatalities filtered = 0 <->
      severity_count "Fatal" (rows filtered) = 0%nat).
Proof.
  intros Hfits filtered. unfold total_fatalities, filtered.
  destruct (metric_exact fatalities_30d _ sel Hfits) as [-> _].
  rewrite df_filtered_rows.
  apply fatal_count_bound.
  apply Forall_forall. intros r Hr. apply filter_In in Hr as [Hr _].
  split; [apply (proj1 Hfits r Hr)|].
  unfold feature_engineering in Hr; simpl in Hr.
  apply in_map_iff in Hr as [raw [<- _]]. apply fatal_iff_fatalities.
Qed.

Lemma sample_csv_fits :
  fits_int64 fatalities_30d (feature_engineering sample_csv)
  /\ fits_int64 serious_injuries_30d (feature_engineering sample_csv)
  /\ fits_int64 minor_injuries_30d (feature_engineering sample_csv).
Proof.
  repeat split; try (vm_compute; reflexivity);
    intros r Hr; simpl in Hr;
    repeat (destruct Hr as [<-|Hr]; [simpl; lia|]); contradiction.
Defined.

(** The sample file has one fatal record, with one fatality. *)
Lemma fatal_records_and_fatalities_witness :
  fits_int64 fatalities_30d (feature_engineering sample_csv)
  /\ Z.of_nat (severity_count "Fatal"
                 (rows (df_filtered (feature_engineering sample_csv) everything)))
     <= total_fatalities (df_filtered (feature_engineering sample_csv) everything).
Proof.
  split; [exact (proj1 sample_csv_fits)|].
  apply (fatal_records_and_fatalities sample_csv everything
           (proj1 sample_csv_fits)).
Defined.

(** ** The heat map against the bar charts *)

Lemma ascending_unique (l1 l2 : list Z) :
  StronglySorted Z.lt l1 -> StronglySorted Z.lt l2 ->
  (forall x, In x l1 <-> In x l2) -> l1 = l2.
Proof.
  intros H1. revert l2.
  induction H1 as [|a t1 Ht1 IH Ha]; intros l2 H2 Hsame.
  - destruct l2 as [|b t2]; [reflexivity|].
    exfalso. apply (Hsame b). left; reflexivity.
  - destruct H2 as [|b t2 Ht2 Hb].
    + exfalso. apply (Hsame a). left; reflexivity.
    + rewrite Forall_forall in Ha, Hb.
      assert (a = b).
      { destruct (proj1 (Hsame a) (or_introl eq_refl)) as [E|Hin]; [auto|].
        destruct (proj2 (Hsame b) (or_introl eq_refl)) as [E|Hin']; [auto|].
        specialize (Ha b Hin'). specialize (Hb a Hin). lia. }
      subst b. f_equal. apply IH; [exact Ht2|].
      intros x. split; intros Hx.
      * destruct (proj1 (Hsame x) (or_intror Hx)) as [E|Hin]; [|exact Hin].
        specialize (Ha x Hx). lia.
      * destruct (proj2 (Hsame x) (or_intror Hx)) as [E|Hin]; [|exact Hin].
        specialize (Hb x Hx). lia.
Qed.

(** The cells of one hour add up to the records of that hour, when every
    record has one of the categories as its weekday. *)
Lemma heatmap_column_total (categories : list string) (h : Z) (l : list row) :
  NoDup categories ->
  Forall (fun r => exists w, weekday r = Some w /\ In w categories) l ->
  list_sum (map (fun w => cell_count w h l) categories) = hour_count h l.
Proof.
  intros Hnd Hknown.
  transitivity (list_sum (map (fun w => weekday_count w
                                          (filter (fun r => hour r =? h) l)) categories)).
  - f_equal. apply map_ext. intros w. unfold cell_count, weekday_count.
    rewrite filter_filter_andb. f_equal. apply filter_ext. intros r. apply andb_comm.
  - apply weekday_counts_total; [exact Hnd|].
    rewrite Forall_forall in *. intros r Hr. apply filter_In in Hr as [Hr _].
    apply Hknown, Hr.
Qed.

(** X13. The heat map agrees with the two bar charts, under either default
    of pandas: its columns are the hours of the hour chart, each column adds
    up to the bar of that hour, and each row adds up to the bar of that
    weekday (NaN cells add nothing). *)
Theorem heatmap_marginals (observed : bool) (csv : list raw_row)
    (sel : selection) :
  let df := feature_engineering csv in
  let filtered := df_filtered df sel in
  let t := heatmap_data observed (weekday_options df) filtered in
  t_columns t = map fst (hourly_data filtered)
  /\ map (column_total t) (t_columns t) = map snd (hourly_data filtered)
  /\ map (fun cells_row => Some (nansum cells_row)) (t_cells t)
     = map snd (weekday_data (weekday_options df) filtered).
Proof.
  intros df filtered t.
  assert (Hgrouped : filter has_weekday (rows filtered) = rows filtered)
    by apply filtered_grouped.
  assert (Hcols : t_columns t = map fst (hourly_data filtered)).
  { apply ascending_unique.
    - unfold t. rewrite heatmap_columns. apply pivot_hours_ascending.
    - apply hourly_data_ascending.
    - intros h. unfold t. rewrite heatmap_columns, Hgrouped, pivot_hours_In.
      symmetry. apply hourly_data_keys. }
  split; [exact Hcols|]. split.
  - rewrite Hcols, map_map. apply map_ext_in. intros [h c] Hin. cbn [fst snd].
    assert (Hh : In h (t_columns t))
      by (rewrite Hcols; apply in_map_iff; exists (h, c); auto).
    apply hourly_data_entries in Hin as [-> _].
    unfold column_total.
    change (t_index t) with weekday_order.
    rewrite <- (heatmap_column_total weekday_order h (rows filtered)
                  weekday_order_NoDup (filtered_weekday_known csv sel)).
    f_equal. apply map_ext_in. intros w Hw.
    unfold t. change (weekday_options df) with (weekday_categories filtered).
    rewrite (heatmap_cell observed filtered w h); [| exact Hw | exact Hh].
    destruct (weekday_count w (rows filtered) =? 0)%nat eqn:Ecount.
    + apply Nat.eqb_eq in Ecount.
      rewrite (weekday_absent_cell w h _ Ecount).
      destruct observed; reflexivity.
    + rewrite andb_false_r. reflexivity.
  - unfold t. change (weekday_options df) with (weekday_categories filtered).
    pose proof (heatmap_cells observed filtered) as Hcells. cbv zeta in Hcells.
    rewrite Hcells, weekday_data_tabulated by apply weekday_order_NoDup.
    rewrite !map_map. apply map_ext. intros w. cbn [snd]. f_equal.
    apply (heatmap_row_nansum observed w (rows filtered)).
Qed.

(** ** Splitting the hour range *)

Lemma sigma_filter_split (f : row -> Z) (p q1 q2 : row -> bool) (l : list row) :
  (forall r, p r = q1 r || q2 r) ->
  (forall r, q1 r && q2 r = false) ->
  sigma f (filter p l) = sigma f (filter q1 l) + sigma f (filter q2 l).
Proof.
  intros Hor Hdis. induction l as [|r t IH]; simpl; [reflexivity|].
  rewrite Hor. specialize (Hdis r).
  destruct (q1 r), (q2 r); simpl in *; try discriminate; rewrite IH; lia.
Qed.

Lemma length_filter_split (p q1 q2 : row -> bool) (l : list row) :
  (forall r, p r = q1 r || q2 r) ->
  (forall r, q1 r && q2 r = false) ->
  List.length (filter p l)
  = (List.length (filter q1 l) + List.length (filter q2 l))%nat.
Proof.
  intros Hor Hdis. induction l as [|r t IH]; simpl; [reflexivity|].
  rewrite Hor. specialize (Hdis r).
  destruct (q1 r), (q2 r); simpl in *; try discriminate; rewrite IH; lia.
Qed.

Lemma passes_split (sel : selection) (lo mid hi : Z) (r : row) :
  lo - 1 <= mid <= hi ->
  passes (with_hours sel (lo, hi)) r
  = passes (with_hours sel (lo, mid)) r || passes (with_hours sel (mid + 1, hi)) r
  /\ passes (with_hours sel (lo, mid)) r && passes (with_hours sel (mid + 1, hi)) r
     = false.
Proof.
  intros Hmid. unfold passes, with_hours.
  cbn [selected_severity selected_weekdays selected_months hour_range fst snd].
  destruct (mem_string (severity r) (selected_severity sel)
            && match weekday r with
               | Some w => mem_string w (selected_weekdays sel)
               | None => false
               end
            && match month r with
               | Some m => mem_string m (selected_months sel)
               | None => false
               end); simpl; [|split; reflexivity].
  destruct (lo <=? hour r) eqn:E1, (hour r <=? hi) eqn:E2,
           (hour r <=? mid) eqn:E3, (mid + 1 <=? hour r) eqn:E4;
    rewrite ?Z.leb_le, ?Z.leb_gt in *; simpl; split; try reflexivity; lia.
Qed.

(** X14. The metrics add up over the hours: when an hour range is cut in two
    at some hour, the number of records of the whole range is the sum of the
    numbers of the two parts, and each victim metric of the whole range is
    what adding the metrics of the two parts gives in int64. *)
Theorem metrics_split_by_hour (df : DataFrame) (sel : selection) (lo mid hi : Z) :
  lo - 1 <= mid <= hi ->
  let whole := df_filtered df (with_hours sel (lo, hi)) in
  let early := df_filtered df (with_hours sel (lo, mid)) in
  let late := df_filtered df (with_hours sel (mid + 1, hi)) in
  total_accidents whole = (total_accidents early + total_accidents late)%nat
  /\ total_fatalities whole
     = int64_add (total_fatalities early) (total_fatalities late)
  /\ total_serious_injuries whole
     = int64_add (total_serious_injuries early) (total_serious_injuries late)
  /\ total_minor_injuries whole
     = int64_add (total_minor_injuries early) (total_minor_injuries late).
Proof.
  intros Hmid whole early late.
  assert (Hor := fun r => proj1 (passes_split sel lo mid hi r Hmid)).
  assert (Hdis := fun r => proj2 (passes_split sel lo mid hi r Hmid)).
  unfold total_accidents, total_fatalities, total_serious_injuries,
    total_minor_injuries, column, whole, early, late.
  rewrite !series_sum_wrap, !int64_add_wrap, !df_filtered_rows.
  split; [apply length_filter_split; assumption|].
  repeat split; f_equal; apply sigma_filter_split; assumption.
Qed.

(** The whole day is the morning until 12 and the rest. *)
Lemma metrics_split_by_hour_witness :
  0 - 1 <= 12 <= 23
  /\ total_accidents (df_filtered (feature_engineering sample_csv)
                        (with_hours everything (0, 23)))
     = Nat.add
         (total_accidents (df_filtered (feature_engineering sample_csv)
                             (with_hours everything (0, 12))))
         (total_accidents (df_filtered (feature_engineering sample_csv)
                             (with_hours everything (12 + 1, 23)))).
Proof.
  split; [lia|].
  apply (metrics_split_by_hour (feature_engineering sample_csv) everything 0 12 23).
  lia.
Defined.

(** ** What is shown has records behind it *)

(** X15. Whatever the file and the widgets, a map that is shown has at least
    one marker and a Total Accidents metric that is shown is at least 1: the
    views are never computed from an empty frame. *)
Theorem shown_views_have_records (s : session) :
  (forall markers, In (st_folium markers) (fst (dashboard s)) -> markers <> [])
  /\ (forall v, In (metric "Total Accidents" v) (fst (dashboard s)) -> 1 <= v).
Proof.
  destruct s as [[csv|] sel observed].
  - pose proof (dashboard_loaded observed csv sel) as Hrun. cbv zeta in Hrun.
    rewrite Hrun. clear Hrun.
    set (df := feature_engineering csv). set (filtered := df_filtered df sel).
    destruct (empty filtered) eqn:Hempty; cbn [fst].
    + split; intros x Hin; exfalso;
        apply in_app_or in Hin as [Hin|Hin]; simpl in Hin;
        repeat (destruct Hin as [Hin|Hin]; [discriminate Hin|]); exact Hin.
    + assert (Hne : rows filtered <> []).
      { intros E. apply empty_rows in E. congruence. }
      split; intros x Hin; apply in_app_or in Hin as [Hin|Hin];
        unfold sidebar, main_page in Hin; cbn [In] in Hin.
      * exfalso. repeat (destruct Hin as [Hin|Hin]; [discriminate Hin|]). exact Hin.
      * repeat (destruct Hin as [Hin|Hin]; [try discriminate Hin|]); [|contradiction].
        injection Hin as <-. intros E. apply map_eq_nil in E. contradiction.
      * exfalso. repeat (destruct Hin as [Hin|Hin]; [discriminate Hin|]). exact Hin.
      * repeat (destruct Hin as [Hin|Hin]; [try discriminate Hin|]); [|contradiction].
        injection Hin as <-. unfold total_accidents.
        destruct (rows filtered); [contradiction | simpl List.length; lia].
  - split; intros x Hin; simpl in Hin;
      repeat (destruct Hin as [Hin|Hin]; [discriminate Hin|]); contradiction.
Qed.

(** X16. When no line of the file has a negative victim count and each of
    the three victim columns of the whole file adds up to less than 2^63,
    selecting more never lowers a victim metric, and no victim metric is
    negative. *)
Theorem victim_metrics_monotone (csv : list raw_row) (narrow wide : selection) :
  let df := feature_engineering csv in
  fits_int64 fatalities_30d df ->
  fits_int64 serious_injuries_30d df ->
  fits_int64 minor_injuries_30d df ->
  incl (selected_severity narrow) (selected_severity wide) ->
  incl (selected_weekdays narrow) (selected_weekdays wide) ->
  incl (selected_months narrow) (selected_months wide) ->
  fst (hour_range wide) <= fst (hour_range narrow) ->
  snd (hour_range narrow) <= snd (hour_range wide) ->
  0 <= total_fatalities (df_filtered df narrow) <= total_fatalities (df_filtered df wide)
  /\ 0 <= total_serious_injuries (df_filtered df narrow)
       <= total_serious_injuries (df_filtered df wide)
  /\ 0 <= total_minor_injuries (df_filtered df narrow)
       <= total_minor_injuries (df_filtered df wide).
Proof.
  intros df Hf Hsi Hmi Hs Hw Hm Hlo Hhi.
  assert (Himp : forall r, passes narrow r = true -> passes wide r = true)
    by (intros r; apply passes_widen; assumption).
  assert (Hcol : forall f, fits_int64 f df ->
            0 <= series_sum (column f (df_filtered df narrow))
              <= series_sum (column f (df_filtered df wide))).
  { intros f Hfits.
    destruct (metric_exact f df narrow Hfits) as [-> _].
    destruct (metric_exact f df wide Hfits) as [-> _].
    apply sigma_filter_le; [apply Hfits | exact Himp]. }
  unfold total_fatalities, total_serious_injuries, total_minor_injuries.
  split; [|split]; apply Hcol; assumption.
Qed.

(** Fatal accidents on Monday morning, within everything, on the sample
    file. *)
Lemma victim_metrics_monotone_witness :
  let narrow := {| selected_severity := ["Fatal"]; hour_range := (6, 12);
                   selected_weekdays := ["Monday"]; selected_months := ["Mar"] |} in
  let df := feature_engineering sample_csv in
  0 <= total_fatalities (df_filtered df narrow)
    <= total_fatalities (df_filtered df everything).
Proof.
  intros narrow df.
  apply (victim_metrics_monotone sample_csv narrow everything).
  - exact (proj1 sample_csv_fits).
  - exact (proj1 (proj2 sample_csv_fits)).
  - exact (proj2 (proj2 sample_csv_fits)).
  - intros s [<-|[]]. simpl; auto.
  - intros s [<-|[]]. simpl; auto.
  - intros s [<-|[]]. simpl; auto.
  - simpl; lia.
  - simpl; lia.
Defined.

(** X17. The pie chart is given the same colours as the map, and every slice
    of the severity chart of a filtered frame has a colour among them, so
    the chart has at most four slices. *)
Theorem pie_slices_have_colours (csv : list raw_row) (sel : selection) :
  let filtered := df_filtered (feature_engineering csv) sel in
  color_discrete_map = severity_color_map
  /\ Forall (fun slice => exists c,
               lookup String.eqb (fst slice) color_discrete_map = Some c)
       (severity_data filtered)
  /\ (List.length (severity_data filtered) <= 4)%nat.
Proof.
  intros filtered.
  assert (Hkeys : incl (map fst (severity_data filtered)) severity_labels).
  { intros s Hs. apply in_map_iff in Hs as [[s' c] [Es Hin]]. simpl in Es; subst s'.
    unfold severity_data in Hin.
    apply (value_counts_entries String.eqb String.eqb_eq) in Hin as [-> Hpos].
    apply (count_of_pos String.eqb String.eqb_eq) in Hpos.
    apply in_map_iff in Hpos as [r [<- Hr]].
    apply filtered_from_csv in Hr as [raw [_ ->]].
    rewrite severity_engineer. apply priority_rule_label. }
  split; [reflexivity|]. split.
  - apply Forall_forall. intros slice Hin.
    assert (Hs : In (fst slice) severity_labels)
      by (apply Hkeys, in_map, Hin).
    simpl in Hs. destruct Hs as [<-|[<-|[<-|[<-|[]]]]]; eexists; reflexivity.
  - rewrite <- (length_map fst).
    change 4%nat with (List.length severity_labels).
    apply NoDup_incl_length; [|exact Hkeys].
    apply (value_counts_keys_NoDup String.eqb String.eqb_eq).
Qed.
